(** * Procreate metadata extraction: a shallow embedding of
      [ingest/python/procreate_meta.py]

    The development follows the Python module block by block.  Python
    values are an inductive type, exceptions are an error result, the
    [meta] dictionary that [parse_document_archive] fills in is threaded
    through a small state-and-error monad (an assignment made before an
    exception stays visible to the handler, as in Python), floats are
    IEEE-754 binary64 numbers ([SpecFloat], round to nearest even), and
    the file system, the clock and the standard output used by
    [inspect_procreate] form an explicit world record.

    Code that the module imports from libraries is either given by its
    documented behaviour ([hashlib.sha256], [int], [float], [str.strip],
    [str.split], [dict.get], [datetime.datetime]) or taken as a section
    variable ([biplist.readPlistFromString], [zipfile.ZipFile],
    [datetime.timestamp], [PIL.Image.verify], the temporary directory). *)

From Stdlib Require Import ZArith String Ascii List Lia Bool.
From Stdlib Require Import Init.Byte DecimalString.
From Corelib Require Import SpecFloat.
From stdpp Require Import gmap strings list fin_maps.
From Equations Require Import Equations.

Local Open Scope string_scope.
Local Open Scope Z_scope.

Set Warnings "-register-all".

(** ** Exceptions and results *)

(** The Python exception classes that the modelled code can raise. *)
Inductive exn : Type :=
| RuntimeError
| AttributeError
| TypeError
| ValueError
| OverflowError
| IndexError
| KeyError
| FileNotFoundError
| BadZipFile
| ImageError.

Inductive result (A : Type) : Type :=
| Ok (a : A)
| Raise (e : exn).
Arguments Ok {A} a.
Arguments Raise {A} e.

Definition rbind {A B} (r : result A) (k : A -> result B) : result B :=
  match r with
  | Ok a => k a
  | Raise e => Raise e
  end.

Definition rmap {A B} (f : A -> B) (r : result A) : result B :=
  rbind r (fun a => Ok (f a)).

(** ** Python values, as [biplist] produces them

    A [str] is modelled by its characters in the ASCII range, a [bytes]
    object by its bytes, an [int] by an unbounded integer and a [float] by
    a binary64 number. *)

Inductive value : Type :=
| VNone
| VBool (b : bool)
| VInt (z : Z)
| VFloat (f : spec_float)
| VDate (f : spec_float)            (* datetime.datetime, from a plist date *)
| VData (b : list byte)             (* biplist.Data, a subclass of bytes *)
| VStr (s : string)
| VUid (n : Z)                      (* biplist.Uid, a wrapper object *)
| VList (l : list value)
| VDict (d : list (string * value)). (* insertion ordered, keys distinct *)

(** Truth value of an object ([if x], [x or y], [not x]).  A NaN is true;
    a [Uid] and a [datetime] define neither [__bool__] nor [__len__]. *)
Definition truthy (v : value) : bool :=
  match v with
  | VNone => false
  | VBool b => b
  | VInt z => negb (z =? 0)
  | VFloat (S754_zero _) => false
  | VFloat _ => true
  | VDate _ => true
  | VData [] => false
  | VData _ => true
  | VStr EmptyString => false
  | VStr _ => true
  | VUid _ => true
  | VList [] => false
  | VList _ => true
  | VDict [] => false
  | VDict _ => true
  end.

Definition is_none (v : value) : bool :=
  match v with VNone => true | _ => false end.

(** [k in d] and [d[k]] on a dict whose keys are strings. *)
Fixpoint dict_lookup (k : string) (d : list (string * value)) : option value :=
  match d with
  | [] => None
  | (k', v) :: d' => if String.eqb k k' then Some v else dict_lookup k d'
  end.

(** [d.get(k, default)] *)
Definition dict_get (d : list (string * value)) (k : string) (default : value) : value :=
  match dict_lookup k d with
  | Some v => v
  | None => default
  end.

(** [obj.get(k)]: only a dict has the method. *)
Definition py_get (obj : value) (k : string) : result value :=
  match obj with
  | VDict d => Ok (dict_get d k VNone)
  | _ => Raise AttributeError
  end.

(** Index normalisation of [list.__getitem__]: negative indices count from
    the end. *)
Definition seq_index {A} (l : list A) (i : Z) : result A :=
  let n := Z.of_nat (length l) in
  let j := if i <? 0 then i + n else i in
  if (0 <=? j) && (j <? n) then
    match nth_error l (Z.to_nat j) with
    | Some x => Ok x
    | None => Raise IndexError
    end
  else Raise IndexError.

(** An object usable as a sequence index ([__index__]): int and bool. *)
Definition as_index (k : value) : option Z :=
  match k with
  | VInt i => Some i
  | VBool b => Some (Z.b2z b)
  | _ => None
  end.

Definition hashable (k : value) : bool :=
  match k with
  | VList _ | VDict _ => false
  | _ => true
  end.

(** [c[k]] *)
Definition py_getitem (c k : value) : result value :=
  match c with
  | VList l =>
      match as_index k with
      | Some i => seq_index l i
      | None => Raise TypeError
      end
  | VDict d =>
      match k with
      | VStr s => match dict_lookup s d with
                  | Some v => Ok v
                  | None => Raise KeyError
                  end
      | _ => if hashable k then Raise KeyError else Raise TypeError
      end
  | VStr s =>
      match as_index k with
      | Some i => rmap (fun a => VStr (String a EmptyString))
                       (seq_index (list_ascii_of_string s) i)
      | None => Raise TypeError
      end
  | VData b =>
      match as_index k with
      | Some i => rmap (fun x => VInt (Z.of_N (Byte.to_N x))) (seq_index b i)
      | None => Raise TypeError
      end
  | _ => Raise TypeError
  end.

(** [len(x)] *)
Definition py_len (v : value) : result Z :=
  match v with
  | VList l => Ok (Z.of_nat (length l))
  | VDict d => Ok (Z.of_nat (length d))
  | VStr s => Ok (Z.of_nat (String.length s))
  | VData b => Ok (Z.of_nat (length b))
  | _ => Raise TypeError
  end.

(** ** Strings: [str.strip], [str.split] *)

Definition char_code (c : ascii) : Z := Z.of_N (N_of_ascii c).

(** Characters that [str.strip()] removes and that [int(str)] and
    [float(str)] skip at both ends (the ASCII range of [str.isspace]). *)
Definition is_space (c : ascii) : bool :=
  let n := char_code c in
  ((9 <=? n) && (n <=? 13)) || ((28 <=? n) && (n <=? 32)).

(** Whitespace of a bytes object ([bytes.isspace]). *)
Definition is_space_bytes (c : ascii) : bool :=
  let n := char_code c in
  ((9 <=? n) && (n <=? 13)) || (n =? 32).

Fixpoint lstrip (p : ascii -> bool) (s : string) : string :=
  match s with
  | EmptyString => EmptyString
  | String c r => if p c then lstrip p r else s
  end.

Fixpoint rstrip (p : ascii -> bool) (s : string) : string :=
  match s with
  | EmptyString => EmptyString
  | String c r =>
      match rstrip p r with
      | EmptyString => if p c then EmptyString else String c EmptyString
      | r' => String c r'
      end
  end.

(** [s.strip(chars)] and [s.strip()] *)
Definition strip (p : ascii -> bool) (s : string) : string :=
  rstrip p (lstrip p s).

Definition in_chars (chars : string) (c : ascii) : bool :=
  existsb (Ascii.eqb c) (list_ascii_of_string chars).

(** [s.split(sep)] for a one-character separator: never an empty list. *)
Fixpoint split (sep : ascii) (s : string) : list string :=
  match s with
  | EmptyString => [EmptyString]
  | String c r =>
      if Ascii.eqb c sep then EmptyString :: split sep r
      else match split sep r with
           | h :: t => String c h :: t
           | [] => [String c EmptyString]
           end
  end.

(** ** Numbers: [int(x)], [float(s)], float addition *)

Definition prec : Z := 53.
Definition emax : Z := 1024.

Definition float_of_Z (z : Z) : spec_float := binary_normalize prec emax z 0 false.
Definition float_add : spec_float -> spec_float -> spec_float := SFadd prec emax.
Definition float_eqb : spec_float -> spec_float -> bool := SFeqb.

(** [int(f)] on a float: the integer part, rounding toward zero; a NaN
    raises [ValueError] and an infinity [OverflowError]. *)
Definition float_trunc (f : spec_float) : result Z :=
  match f with
  | S754_zero _ => Ok 0
  | S754_infinity _ => Raise OverflowError
  | S754_nan => Raise ValueError
  | S754_finite s m e => Ok (cond_Zopp s (Z.shiftl (Zpos m) e))
  end.

Definition digit_of (c : ascii) : option Z :=
  let n := char_code c in
  if (48 <=? n) && (n <=? 57) then Some (n - 48) else None.

Definition is_digit (c : ascii) : bool :=
  match digit_of c with Some _ => true | None => false end.

(** Longest prefix of [s] of the form [digit ("_"? digit)*], read onto the
    accumulator [acc]; [n] counts the digits read and [prev] tells whether
    the previous character was a digit (an underscore is only allowed
    between two digits).  Returns the number, the digit count and the rest. *)
Fixpoint scan_digits (acc : Z) (n : nat) (prev : bool) (s : string) : Z * nat * string :=
  match s with
  | EmptyString => (acc, n, s)
  | String c r =>
      match digit_of c with
      | Some d => scan_digits (10 * acc + d) (S n) true r
      | None =>
          if Ascii.eqb c "_"%char && prev then
            match r with
            | String c' _ => if is_digit c' then scan_digits acc n false r
                             else (acc, n, s)
            | EmptyString => (acc, n, s)
            end
          else (acc, n, s)
      end
  end.

(** Optional sign at the head of a literal: [true] for a minus. *)
Definition scan_sign (s : string) : bool * string :=
  match s with
  | String "-"%char r => (true, r)
  | String "+"%char r => (false, r)
  | _ => (false, s)
  end.

(** Default limit of CPython on the digits of a decimal integer string. *)
Definition max_str_digits : nat := 4300.

(** [int(s)] for a str (or the text of a bytes object), base 10. *)
Definition int_of_text (space : ascii -> bool) (s : string) : result Z :=
  let '(neg, r) := scan_sign (strip space s) in
  match scan_digits 0 0 false r with
  | (z, S n, EmptyString) =>
      if (S n <=? max_str_digits)%nat then Ok (cond_Zopp neg z)
      else Raise ValueError
  | _ => Raise ValueError
  end.

Definition lower (c : ascii) : ascii :=
  let n := char_code c in
  if (65 <=? n) && (n <=? 90) then ascii_of_N (Z.to_N (n + 32)) else c.

Definition lower_string (s : string) : string :=
  string_of_list_ascii (map lower (list_ascii_of_string s)).

(** The binary64 number nearest to [(-1)^neg * m * 10^e] (ties to even),
    for [m >= 0]: what [float(s)] returns for a decimal literal. *)
Definition float_of_decimal (neg : bool) (m e : Z) : spec_float :=
  match m with
  | Z0 => S754_zero neg
  | Zneg _ => S754_nan
  | Zpos _ =>
      if 0 <=? e then binary_normalize prec emax (cond_Zopp neg (m * 10 ^ e)) 0 false
      else let '(q, e', l) := SFdiv_core_binary prec emax m 0 (10 ^ (- e)) 0 in
           binary_round_aux prec emax neg q e' l
  end.

(** Exponent part of a float literal: [None] when malformed, the exponent
    (0 when there is none) otherwise. *)
Definition scan_exponent (s : string) : option Z :=
  match s with
  | EmptyString => Some 0
  | String c r =>
      if Ascii.eqb (lower c) "e"%char then
        let '(neg, r') := scan_sign r in
        match scan_digits 0 0 false r' with
        | (x, S _, EmptyString) => Some (cond_Zopp neg x)
        | _ => None
        end
      else None
  end.

(** [float(s)] for a str: optional sign, then [inf], [infinity], [nan]
    (any case) or a decimal literal with optional fraction and exponent. *)
Definition float_of_str (s : string) : result spec_float :=
  let '(neg, r) := scan_sign (strip is_space s) in
  let w := lower_string r in
  if String.eqb w "inf" || String.eqb w "infinity" then Ok (S754_infinity neg)
  else if String.eqb w "nan" then Ok S754_nan
  else
    let '(ip, n1, r1) := scan_digits 0 0 false r in
    let '(m, n2, r2) :=
      match r1 with
      | String "."%char r1' => scan_digits ip 0 false r1'
      | _ => (ip, 0%nat, r1)
      end in
    match (n1 + n2)%nat, scan_exponent r2 with
    | S _, Some x => Ok (float_of_decimal neg m (x - Z.of_nat n2))
    | _, _ => Raise ValueError
    end.

Definition string_of_bytes (b : list byte) : string :=
  string_of_list_ascii (map ascii_of_byte b).

(** [int(x)] *)
Definition py_int (v : value) : result Z :=
  match v with
  | VBool b => Ok (Z.b2z b)
  | VInt z => Ok z
  | VFloat f => float_trunc f
  | VStr s => int_of_text is_space s
  | VData b => int_of_text is_space_bytes (string_of_bytes b)
  | VUid n => Ok n
  | VNone | VDate _ | VList _ | VDict _ => Raise TypeError
  end.

(** [v + k] for an int literal [k]: int and bool add exactly, a float adds
    in binary64; no other plist value supports [+] with an int. *)
Definition py_add_int (v : value) (k : Z) : result value :=
  match v with
  | VBool b => Ok (VInt (Z.b2z b + k))
  | VInt z => Ok (VInt (z + k))
  | VFloat f => Ok (VFloat (float_add f (float_of_Z k)))
  | _ => Raise TypeError
  end.

(** [x == k] for an int [k], as a dict lookup decides it for a hashable
    key: True is 1, a float is compared by value, a [Uid] only equals
    another [Uid]. *)
Definition eq_int (x : value) (k : Z) : bool :=
  match x with
  | VBool b => Z.b2z b =? k
  | VInt z => z =? k
  | VFloat f => float_eqb f (float_of_Z k)
  | _ => false
  end.

(** [d.get(x, default)] on a dict with int keys. *)
Fixpoint int_dict_get (d : list (Z * string)) (x : value) (default : string) : string :=
  match d with
  | [] => default
  | (k, v) :: d' => if eq_int x k then v else int_dict_get d' x default
  end.


(** ** Keyed-archive helpers: [cfuid], [resolve] *)

(** [cfuid(obj)]: the value under ["CF$UID"] of a dict that has the key,
    [int(obj)] for a [Uid] object, [None] otherwise. *)
Definition cfuid (obj : value) : value :=
  match obj with
  | VDict d =>
      match dict_lookup "CF$UID" d with
      | Some v => v
      | None => VNone
      end
  | VUid n => VInt n
  | _ => VNone
  end.

(** [resolve(objects, value)] *)
Definition resolve (objects v : value) : result value :=
  let uid := cfuid v in
  if is_none uid then Ok v else py_getitem objects uid.

(** ** The [meta] dictionary and the monad that threads it *)

Abbreviation Meta := (gmap string value).

Definition M (A : Type) : Type := Meta -> result A * Meta.

Definition ret {A} (a : A) : M A := fun m => (Ok a, m).

Definition bind {A B} (c : M A) (k : A -> M B) : M B :=
  fun m => match c m with
           | (Ok a, m') => k a m'
           | (Raise e, m') => (Raise e, m')
           end.

Notation "x <-- c ; k" := (bind c (fun x => k))
  (at level 100, c at next level, k at level 200, right associativity).
Notation "c ;; k" := (bind c (fun _ => k))
  (at level 100, k at level 200, right associativity).

(** A computation that does not touch [meta]. *)
Definition lift {A} (r : result A) : M A := fun m => (r, m).

(** [meta[k] = v] *)
Definition assign (k : string) (v : value) : M unit :=
  fun m => (Ok tt, <[k := v]> m).

(** [meta[k]] *)
Definition read (k : string) : M value :=
  fun m => (match m !! k with Some v => Ok v | None => Raise KeyError end, m).

(** [try: body  except: handler] (a bare [except] catches everything; the
    handler sees the assignments the body made before it raised). *)
Definition try_except {A} (body handler : M A) : M A :=
  fun m => match body m with
           | (Raise _, m') => handler m'
           | r => r
           end.

(** [root.get(k) or root.get(k1) or ...]: the first true value, else the
    value of the last key; later keys are not looked up once one is true. *)
Fixpoint get_or (root : value) (k : string) (ks : list string) : result value :=
  match ks with
  | [] => py_get root k
  | k' :: ks' =>
      rbind (py_get root k) (fun v => if truthy v then Ok v else get_or root k' ks')
  end.

(** [int(x) if x else 0] *)
Definition int_or_zero (x : value) : result value :=
  if truthy x then rmap VInt (py_int x) else Ok (VInt 0).

(** ** The container: [zipfile.ZipFile] *)

Record ZipInfo : Type := {
  date_time : Z * Z * Z * Z * Z * Z;   (* year, month, day, hour, minute, second *)
  content : list byte
}.

(** Entries by name. *)
Definition ZipFile : Type := list (string * ZipInfo).

Fixpoint zip_find (name : string) (zf : ZipFile) : option ZipInfo :=
  match zf with
  | [] => None
  | (n, i) :: zf' => if String.eqb name n then Some i else zip_find name zf'
  end.

(** [zf.getinfo(name)] *)
Definition getinfo (zf : ZipFile) (name : string) : result ZipInfo :=
  match zip_find name zf with
  | Some i => Ok i
  | None => Raise KeyError
  end.

(** [zf.read(name)] *)
Definition zip_read (zf : ZipFile) (name : string) : result (list byte) :=
  rmap content (getinfo zf name).

Definition is_leap (y : Z) : bool :=
  (y mod 4 =? 0) && (negb (y mod 100 =? 0) || (y mod 400 =? 0)).

Definition days_in_month (y m : Z) : Z :=
  if m =? 2 then (if is_leap y then 29 else 28)
  else if (m =? 4) || (m =? 6) || (m =? 9) || (m =? 11) then 30
  else 31.

(** Range checks of the [datetime.datetime] constructor ([ValueError]
    when one fails). *)
Definition datetime_valid (dt : Z * Z * Z * Z * Z * Z) : bool :=
  let '(y, mo, d, h, mi, s) := dt in
  (1 <=? y) && (y <=? 9999) && (1 <=? mo) && (mo <=? 12) &&
  (1 <=? d) && (d <=? days_in_month y mo) &&
  (0 <=? h) && (h <=? 23) && (0 <=? mi) && (mi <=? 59) &&
  (0 <=? s) && (s <=? 59).

(** ** Dates *)

Definition apple_epoch_offset : Z := 978307200.

(** [apple_time_to_unix(val)] *)
Definition apple_time_to_unix (val : value) : result value :=
  if is_none val then Ok VNone
  else rbind (py_add_int val apple_epoch_offset) (fun s => rmap VInt (py_int s)).

(** [a > b] where both are ints, as the values stored under [created_at] and
    [updated_at] are. *)
Definition gt_int (a b : value) : result bool :=
  match a, b with
  | VInt x, VInt y => Ok (y <? x)
  | _, _ => Raise TypeError
  end.


(** ** Content hashing: [hashlib.sha256] and [compute_sha256] *)

(** SHA-256 (FIPS 180-4) on 32-bit words kept as integers in [0, 2^32). *)
Module Sha256.

Definition w32 (x : Z) : Z := x mod 2 ^ 32.
Definition add32 (x y : Z) : Z := w32 (x + y).
Definition rotr (n x : Z) : Z := Z.lor (Z.shiftr x n) (w32 (Z.shiftl x (32 - n))).
Definition not32 (x : Z) : Z := Z.lxor x 0xffffffff.

Definition Ch (x y z : Z) : Z := Z.lxor (Z.land x y) (Z.land (not32 x) z).
Definition Maj (x y z : Z) : Z :=
  Z.lxor (Z.lxor (Z.land x y) (Z.land x z)) (Z.land y z).
Definition Sigma0 (x : Z) : Z := Z.lxor (Z.lxor (rotr 2 x) (rotr 13 x)) (rotr 22 x).
Definition Sigma1 (x : Z) : Z := Z.lxor (Z.lxor (rotr 6 x) (rotr 11 x)) (rotr 25 x).
Definition sigma0 (x : Z) : Z := Z.lxor (Z.lxor (rotr 7 x) (rotr 18 x)) (Z.shiftr x 3).
Definition sigma1 (x : Z) : Z := Z.lxor (Z.lxor (rotr 17 x) (rotr 19 x)) (Z.shiftr x 10).

(** The primes below 312: the first 64. *)
Definition is_prime (p : Z) : bool :=
  forallb (fun d => negb (p mod Z.of_nat d =? 0)) (seq 2 (Z.to_nat p - 2)).

Definition primes : list Z :=
  filter is_prime (map Z.of_nat (seq 2 310)).

(** Integer cube root of [x] below [2^n], found bit by bit from the top. *)
Fixpoint cbrt_bits (n : nat) (x r : Z) : Z :=
  match n with
  | O => r
  | S n' =>
      let c := r + 2 ^ Z.of_nat n' in
      cbrt_bits n' x (if c * c * c <=? x then c else r)
  end.

(** Round constants: the first 32 bits of the fractional parts of the cube
    roots of the first 64 primes. *)
Definition K : list Z :=
  Eval vm_compute in map (fun p => w32 (cbrt_bits 36 (p * 2 ^ 96) 0)) primes.

(** Initial hash value: the same for the square roots of the first 8
    primes. *)
Definition H0 : list Z :=
  Eval vm_compute in map (fun p => w32 (Z.sqrt (p * 2 ^ 64))) (firstn 8 primes).

Definition byte_val (b : byte) : Z := Z.of_N (Byte.to_N b).

(** Big-endian bytes of [x], [n] of them. *)
Fixpoint be_bytes (n : nat) (x : Z) : list Z :=
  match n with
  | O => []
  | S n' => (Z.shiftr x (8 * Z.of_nat n')) mod 256 :: be_bytes n' x
  end.

(** The message, a 1 bit, zero bits up to 56 mod 64 bytes, and the bit
    length on 8 bytes. *)
Definition pad (msg : list byte) : list Z :=
  let len := Z.of_nat (length msg) in
  map byte_val msg ++ [128] ++ repeat 0 (Z.to_nat ((55 - len) mod 64))
    ++ be_bytes 8 (8 * len).

(** Big-endian 32-bit words of a byte sequence. *)
Fixpoint words (bs : list Z) : list Z :=
  match bs with
  | a :: b :: c :: d :: r => (((a * 256 + b) * 256 + c) * 256 + d) :: words r
  | _ => []
  end.

(** The message schedule, newest word first: [ws] holds W[t-1], W[t-2], ... *)
Fixpoint schedule (n : nat) (ws : list Z) : list Z :=
  match n with
  | O => ws
  | S n' =>
      let w := add32 (add32 (sigma1 (nth 1 ws 0)) (nth 6 ws 0))
                     (add32 (sigma0 (nth 14 ws 0)) (nth 15 ws 0)) in
      schedule n' (w :: ws)
  end.

Definition round (st : list Z) (kw : Z * Z) : list Z :=
  match st with
  | [a; b; c; d; e; f; g; h] =>
      let t1 := add32 (add32 (add32 h (Sigma1 e)) (add32 (Ch e f g) (fst kw))) (snd kw) in
      let t2 := add32 (Sigma0 a) (Maj a b c) in
      [add32 t1 t2; a; b; c; add32 d t1; e; f; g]
  | _ => st
  end.

(** One 16-word block folded into the chaining value. *)
Definition compress (h : list Z) (block : list Z) : list Z :=
  let w := rev (schedule 48 (rev block)) in
  let st := fold_left round (combine K w) h in
  map (fun p => add32 (fst p) (snd p)) (combine h st).

Fixpoint blocks (fuel : nat) (ws : list Z) : list (list Z) :=
  match fuel with
  | O => []
  | S n => match ws with
           | [] => []
           | _ => firstn 16 ws :: blocks n (skipn 16 ws)
           end
  end.

(** The eight words of the digest. *)
Definition digest_words (msg : list byte) : list Z :=
  let ws := words (pad msg) in
  fold_left compress (blocks (length ws) ws) H0.

Definition hex_digit (x : Z) : ascii :=
  nth (Z.to_nat (x mod 16)) (list_ascii_of_string "0123456789abcdef") "0"%char.

(** Eight hexadecimal digits of a word, most significant first. *)
Definition hex_word (w : Z) : list ascii :=
  map (fun i => hex_digit (Z.shiftr w (4 * i))) [7; 6; 5; 4; 3; 2; 1; 0].

(** [hashlib.sha256(msg).hexdigest()] *)
Definition hexdigest (msg : list byte) : string :=
  string_of_list_ascii (flat_map hex_word (digest_words msg)).

End Sha256.


(** ** The world of a run: files, clock, standard output *)

Record World : Type := {
  files : gmap string (list byte);   (* regular files by path *)
  clock : Z;                         (* int(time.time()) *)
  stdout : list Meta                 (* dictionaries printed as JSON, oldest first *)
}.

Definition write_file (path : string) (data : list byte) (w : World) : World :=
  {| files := <[path := data]> (files w); clock := clock w; stdout := stdout w |}.

Definition print_json (meta : Meta) (w : World) : World :=
  {| files := files w; clock := clock w; stdout := stdout w ++ [meta] |}.

(** [f.read(n)] on a binary file whose unread bytes are [rest]: the bytes
    returned and the bytes left; a negative [n] reads to the end. *)
Definition file_read (n : Z) (rest : list byte) : list byte * list byte :=
  if n <? 0 then (rest, []) else (firstn (Z.to_nat n) rest, skipn (Z.to_nat n) rest).

Definition inspect {A} (a : A) : {b : A | a = b} := exist _ a eq_refl.

(** The loop [for chunk in iter(lambda: f.read(chunk_size), b""):
    sha.update(chunk)]; the hash object is the sequence of bytes it was fed. *)
Equations? hash_chunks (chunk_size : Z) (sha rest : list byte) : list byte
  by wf (length rest) lt :=
  hash_chunks chunk_size sha rest with inspect (file_read chunk_size rest) := {
    | exist _ ([], _) _ => sha
    | exist _ (c :: cs, rest') Heq => hash_chunks chunk_size (sha ++ c :: cs) rest' }.
Proof.
  revert Heq. unfold file_read. destruct (chunk_size <? 0).
  - intros [= H1 H2]. subst. simpl. lia.
  - intros [= Hc Hr]. subst rest'. rewrite length_skipn.
    destruct (Z.to_nat chunk_size); [discriminate|].
    destruct rest; [discriminate|]. simpl. lia.
Qed.

Definition default_chunk_size : Z := 1024 * 1024.

(** [compute_sha256(path, chunk_size)] *)
Definition compute_sha256 (w : World) (path : string) (chunk_size : Z) : result string :=
  match files w !! path with
  | None => Raise FileNotFoundError
  | Some bytes => Ok (Sha256.hexdigest (hash_chunks chunk_size [] bytes))
  end.

(** ** Paths ([pathlib]) *)

(** Final component of a path in normal form. *)
Fixpoint path_name (p : string) : string :=
  match p with
  | EmptyString => EmptyString
  | String c r =>
      if existsb (Ascii.eqb "/"%char) (list_ascii_of_string r) then path_name r
      else if Ascii.eqb c "/"%char then r else p
  end.

(** The name cut at its last dot: the part before and the part from it. *)
Fixpoint rsplit_dot (s : string) : option (string * string) :=
  match s with
  | EmptyString => None
  | String c r =>
      match rsplit_dot r with
      | Some (a, b) => Some (String c a, b)
      | None => if Ascii.eqb c "."%char then Some (EmptyString, s) else None
      end
  end.

(** A dot counts when it is neither the first nor the last character. *)
Definition stem_suffix (p : string) : string * string :=
  let name := path_name p in
  match rsplit_dot name with
  | Some (String c a, String d (String e b)) => (String c a, String d (String e b))
  | _ => (name, EmptyString)
  end.

Definition path_stem (p : string) : string := fst (stem_suffix p).
Definition path_suffix (p : string) : string := snd (stem_suffix p).

(** [json.dumps] raises [TypeError] on bytes, dates and [Uid] objects. *)
Fixpoint json_ok (v : value) : bool :=
  match v with
  | VNone | VBool _ | VInt _ | VFloat _ | VStr _ => true
  | VDate _ | VData _ | VUid _ => false
  | VList l => forallb json_ok l
  | VDict d => forallb (fun kv => json_ok (snd kv)) d
  end.

(** ** NSKeyedArchive parsing: [parse_document_archive] *)

Definition orientation_map : list (Z * string) :=
  [(1, "portrait"); (2, "landscape")].

Section Inspect.

(** [biplist.readPlistFromString]: the decoded property list, or the
    exception of the decoder. *)
Variable readPlistFromString : list byte -> result value.

(** [int(datetime.datetime(y, mo, d, h, mi, s).timestamp())] for a valid naive
    local date: seconds since the unix epoch in the machine's time zone. *)
Variable timestamp : Z * Z * Z * Z * Z * Z -> Z.

(** Lines 89-99: decode, then find [objects] and the root object. *)
Definition resolve_root (data : list byte) : result (value * value) :=
  rbind (readPlistFromString data) (fun plist =>
  rbind (py_getitem plist (VStr "$objects")) (fun objects =>
  rbind (py_getitem plist (VStr "$top")) (fun top =>
  rbind (py_getitem top (VStr "root")) (fun root_ref =>
  let root_uid := cfuid root_ref in
  if is_none root_uid then Raise RuntimeError
  else rbind (py_getitem objects root_uid) (fun root => Ok (objects, root)))))).

(** The body of the [try] that reads a ["{width, height}"] string. *)
Definition canvas_of_string (canvas : string) : M unit :=
  let clean := strip (in_chars "{}") canvas in
  let parts := map (strip is_space) (split ","%char clean) in
  match parts with
  | [p0; p1] =>
      w <-- lift (rbind (float_of_str p0) float_trunc);
      assign "canvas_width" (VInt w);;
      h <-- lift (rbind (float_of_str p1) float_trunc);
      assign "canvas_height" (VInt h)
  | _ => ret tt
  end.

(** Canvas size (lines 106-123). *)
Definition canvas_block (objects root : value) : M unit :=
  sz <-- lift (get_or root "canvasSize" ["size"]);
  canvas <-- lift (resolve objects sz);
  match canvas with
  | VDict c =>
      w <-- lift (py_int (dict_get c "width" (VInt 0)));
      assign "canvas_width" (VInt w);;
      h <-- lift (py_int (dict_get c "height" (VInt 0)));
      assign "canvas_height" (VInt h)
  | VStr s =>
      try_except (canvas_of_string s)
                 (assign "canvas_width" (VInt 0);;
                  assign "canvas_height" (VInt 0))
  | _ =>
      assign "canvas_width" (VInt 0);;
      assign "canvas_height" (VInt 0)
  end.

(** [meta[k] = <expression>]: nothing is stored when the expression
    raises. *)
Definition store (k : string) (r : result value) : M unit :=
  v <-- lift r;
  assign k v.

(** DPI (lines 126-127). *)
Definition dpi_value (root : value) : result value :=
  rbind (get_or root "dpi" ["SilicaDocumentArchiveDPIKey"]) int_or_zero.

(** Orientation (lines 130-136); an unhashable key makes [dict.get]
    raise. *)
Definition orientation_value (root : value) : result value :=
  rbind (py_get root "orientation") (fun o =>
  if hashable o then Ok (VStr (int_dict_get orientation_map o "unknown"))
  else Raise TypeError).

(** The count taken from the [layers] entry (lines 141-147), [None] when
    it gives none. *)
Definition count_layers (objects root : value) : result value :=
  rbind (py_get root "layers") (fun layers_ref =>
  if truthy layers_ref then
    rbind (resolve objects layers_ref) (fun layers =>
    match layers with
    | VDict d =>
        match dict_lookup "NS.objects" d with
        | Some objs => rmap VInt (py_len objs)
        | None => Ok VNone
        end
    | VList l => Ok (VInt (Z.of_nat (length l)))
    | _ => Ok VNone
    end)
  else Ok VNone).

(** Layer count (lines 139-148). *)
Definition layer_count_value (objects root : value) : result value :=
  rbind (py_get root "layerCount") (fun lc =>
  rbind (if is_none lc then count_layers objects root else Ok lc) int_or_zero).

(** Time spent (lines 151-152). *)
Definition time_spent_value (root : value) : result value :=
  rbind (get_or root "timeSpentDrawing" ["SilicaDocumentTrackedTimeKey"]) int_or_zero.

(** The profile read from a resolved [colorProfile] dict (lines 161-168). *)
Definition profile_of_dict (objects : value) (color : list (string * value)) : result value :=
  let icc_name_ref := dict_get color "SiColorProfileArchiveICCNameKey" VNone in
  rbind (if is_none icc_name_ref then Ok VNone
         else rmap (fun r => match r with VStr _ => r | _ => VNone end)
                   (resolve objects icc_name_ref)) (fun color_profile =>
  if truthy color_profile then Ok color_profile
  else get_or (VDict color) "name" ["iccName"]).

(** Color profile (lines 155-171). *)
Definition color_profile_value (objects root : value) : result value :=
  rbind (py_get root "colorProfile") (fun color_ref =>
  if truthy color_ref then
    rbind (resolve objects color_ref) (fun color =>
    match color with
    | VDict d => profile_of_dict objects d
    | VStr _ => Ok color
    | _ => Ok VNone
    end)
  else Ok VNone).

(** Procreate version (line 174). *)
Definition version_value (root : value) : result value :=
  get_or root "appVersion" ["version"].

(** [created] and [modified] (lines 183-192). *)
Definition created_value (root : value) : result value :=
  get_or root "creationDate"
    ["SilicaDocumentArchiveCreationDateKey"; "documentCreationDate"].

Definition modified_value (root : value) : result value :=
  get_or root "lastModifiedDate"
    ["SilicaDocumentArchiveModificationDateKey"; "modificationDate"].

(** Dates read from the archive (lines 183-195). *)
Definition dates_block (root : value) : M unit :=
  created <-- lift (created_value root);
  modified <-- lift (modified_value root);
  c <-- lift (apple_time_to_unix created);
  assign "created_at" c;;
  u <-- lift (apple_time_to_unix modified);
  assign "updated_at" u.

(** The unix time of the stored date of entry [name]: [getinfo], the
    [datetime] constructor, [timestamp()], [int]. *)
Definition entry_timestamp (zf : ZipFile) (name : string) : result Z :=
  rbind (getinfo zf name) (fun info =>
  if datetime_valid (date_time info) then Ok (timestamp (date_time info))
  else Raise ValueError).

(** [zip_timestamp] after lines 201-218: the thumbnail's time, where only
    a [KeyError] is caught, else the archive entry's, where everything is. *)
Definition zip_timestamp (zf : ZipFile) : result value :=
  rbind (match entry_timestamp zf "QuickLook/Thumbnail.png" with
         | Ok t => Ok (VInt t)
         | Raise KeyError => Ok VNone
         | Raise e => Raise e
         end) (fun ts =>
  if is_none ts then
    match entry_timestamp zf "Document.archive" with
    | Ok t => Ok (VInt t)
    | Raise _ => Ok VNone
    end
  else Ok ts).

(** [meta["created_at"] is None or meta["updated_at"] is None] *)
Definition date_missing : M bool :=
  c <-- read "created_at";
  if is_none c then ret true
  else u <-- read "updated_at"; ret (is_none u).

(** What the fallback can supply for a call with container [zf]. *)
Definition container_timestamp (zf : option ZipFile) : result value :=
  match zf with
  | None => Ok VNone
  | Some z => zip_timestamp z
  end.

(** Fallback to the container's timestamps (lines 199-224). *)
Definition zip_fallback_block (zf : option ZipFile) : M unit :=
  match zf with
  | None => ret tt
  | Some z =>
      missing <-- date_missing;
      if missing : bool then
        ts <-- lift (zip_timestamp z);
        if is_none ts then ret tt
        else
          c <-- read "created_at";
          (if is_none c then assign "created_at" ts else ret tt);;
          u <-- read "updated_at";
          (if is_none u then assign "updated_at" ts else ret tt)
      else ret tt
  end.

(** Ordering of the two dates (lines 227-229); the guard is the negation
    of [date_missing], with the same reads. *)
Definition clamp_block : M unit :=
  missing <-- date_missing;
  if missing : bool then ret tt
  else
    c <-- read "created_at";
    u <-- read "updated_at";
    later <-- lift (gt_int c u);
    if later : bool then
      u' <-- read "updated_at";
      assign "created_at" u'
    else ret tt.

(** Lines 101-231, from [meta = {}] to [return meta]. *)
Definition extract_fields (objects root : value) (zf : option ZipFile) : M Meta :=
  canvas_block objects root;;
  store "dpi" (dpi_value root);;
  store "orientation" (orientation_value root);;
  store "layer_count" (layer_count_value objects root);;
  store "time_spent" (time_spent_value root);;
  store "color_profile" (color_profile_value objects root);;
  store "procreate_version" (version_value root);;
  dates_block root;;
  zip_fallback_block zf;;
  clamp_block;;
  (fun meta => (Ok meta, meta)).

(** [parse_document_archive(data, zf)]: the result, and the [meta]
    dictionary as the call left it (empty when the call raised before
    assigning any field). *)
Definition parse_document_archive (data : list byte) (zf : option ZipFile)
  : result Meta * Meta :=
  match resolve_root data with
  | Raise e => (Raise e, ∅)
  | Ok (objects, root) => extract_fields objects root zf ∅
  end.


(** ** Thumbnail extraction and the [inspect] command *)

(** [zipfile.ZipFile(path, "r")] on the bytes of the file. *)
Variable open_zip : list byte -> result ZipFile.

(** [Image.open(p).verify()] on the bytes of the image file: [false] when
    PIL raises. *)
Variable image_verify : list byte -> bool.

(** [TEMP_DIR], the managed directory under the system's temporary one. *)
Variable TEMP_DIR : string.

Definition decimal (z : Z) : string := NilZero.string_of_int (Z.to_int z).

(** [TEMP_DIR / f"{procreate_path.stem}_{int(time.time())}.png"] *)
Definition thumbnail_out_path (w : World) (procreate_path : string) : string :=
  TEMP_DIR ++ "/" ++ path_stem procreate_path ++ "_" ++ decimal (clock w) ++ ".png".

(** [extract_thumbnail(zf, procreate_path)] *)
Definition extract_thumbnail (zf : ZipFile) (procreate_path : string) (w : World)
  : result value * World :=
  match zip_read zf "QuickLook/Thumbnail.png" with
  | Raise KeyError => (Ok VNone, w)
  | Raise e => (Raise e, w)
  | Ok data =>
      let out_path := thumbnail_out_path w procreate_path in
      let w' := write_file out_path data w in
      match files w' !! out_path with
      | Some written =>
          if image_verify written then (Ok (VStr out_path), w')
          else (Raise ImageError, w')
      | None => (Raise FileNotFoundError, w')
      end
  end.

(** [inspect_procreate(path)] *)
Definition inspect_procreate (path : string) (w : World) : result unit * World :=
  match files w !! path with
  | None => (Raise RuntimeError, w)
  | Some bytes =>
      if negb (String.eqb (lower_string (path_suffix path)) ".procreate")
      then (Raise RuntimeError, w)
      else
        match open_zip bytes with
        | Raise e => (Raise e, w)
        | Ok zf =>
            match zip_read zf "Document.archive" with
            | Raise e => (Raise e, w)
            | Ok archive_data =>
                match fst (parse_document_archive archive_data (Some zf)) with
                | Raise e => (Raise e, w)
                | Ok meta =>
                    match extract_thumbnail zf path w with
                    | (Raise e, w1) => (Raise e, w1)
                    | (Ok thumb_path, w1) =>
                        let meta1 := <["thumbnail_path" := thumb_path]> meta in
                        let meta2 := <["source_path" := VStr path]> meta1 in
                        match compute_sha256 w1 path default_chunk_size with
                        | Raise e => (Raise e, w1)
                        | Ok h =>
                            let meta3 := <["file_hash" := VStr h]> meta2 in
                            if map_fold (fun _ v ok => json_ok v && ok) true meta3
                            then (Ok tt, print_json meta3 w1)
                            else (Raise TypeError, w1)
                        end
                    end
                end
            end
        end
  end.

End Inspect.

(** The fields stored before the dates, on top of what the canvas block
    left. *)
Definition scalar_fields (m1 : Meta) (dpi ori lc ts cp ver : value) : Meta :=
  <["procreate_version" := ver]> (<["color_profile" := cp]> (<["time_spent" := ts]>
  (<["layer_count" := lc]> (<["orientation" := ori]> (<["dpi" := dpi]> m1))))).

(** The keys of the root record that the extractor looks up. *)
Definition consulted_keys : list string :=
  ["canvasSize"; "size"; "dpi"; "SilicaDocumentArchiveDPIKey"; "orientation";
   "layerCount"; "layers"; "timeSpentDrawing"; "SilicaDocumentTrackedTimeKey";
   "colorProfile"; "appVersion"; "version";
   "creationDate"; "SilicaDocumentArchiveCreationDateKey"; "documentCreationDate";
   "lastModifiedDate"; "SilicaDocumentArchiveModificationDateKey"; "modificationDate"].

(** A character of a lowercase hexadecimal numeral. *)
Definition is_lower_hex (c : ascii) : bool := in_chars "0123456789abcdef" c.

(** ** Temp cleanup: [clear_temp] *)

(** An int operand of mixed arithmetic becomes a float; one too large for
    binary64 raises [OverflowError]. *)
Definition float_of_int (z : Z) : result spec_float :=
  match float_of_Z z with
  | S754_infinity _ => Raise OverflowError
  | f => Ok f
  end.

Definition float_sub : spec_float -> spec_float -> spec_float := SFsub prec emax.
Definition float_ltb : spec_float -> spec_float -> bool := SFltb.

(** [s.endswith(suffix)] *)
Fixpoint ends_with (suffix s : string) : bool :=
  String.eqb suffix s ||
  match s with
  | String _ r => ends_with suffix r
  | EmptyString => false
  end.

(** The regular files directly inside [TEMP_DIR]: name and [st_mtime]. *)
Definition TempDir : Type := list (string * spec_float).

(** The names that [TEMP_DIR.glob("*.png")] yields. *)
Definition matches_png (name : string) : bool := ends_with ".png" name.

(** [file.stat().st_mtime < cutoff] for a file of the glob. *)
Definition stale (cutoff : spec_float) (f : string * spec_float) : bool :=
  matches_png (fst f) && float_ltb (snd f) cutoff.

(** The loop of [clear_temp]: the files left in the directory and the
    number unlinked. *)
Fixpoint sweep (cutoff : spec_float) (dir : TempDir) : TempDir * Z :=
  match dir with
  | [] => ([], 0)
  | f :: rest =>
      let '(kept, removed) := sweep cutoff rest in
      if stale cutoff f then (kept, removed + 1) else (f :: kept, removed)
  end.

(** [clear_temp(days)] at time [now] = [time.time()]: the dictionary
    printed and the directory afterwards. *)
Definition clear_temp (TEMP_DIR : string) (days : Z) (now : spec_float) (dir : TempDir)
  : result (Meta * TempDir) :=
  rbind (float_of_int (days * 86400)) (fun span =>
  let cutoff := float_sub now span in
  let '(kept, removed) := sweep cutoff dir in
  Ok (<["temp_dir" := VStr TEMP_DIR]> (<["removed" := VInt removed]> ∅), kept)).

(** A date field holds null or an integer. *)
Definition date_shape (o : option value) : Prop :=
  o = Some VNone \/ exists z, o = Some (VInt z).

(** The last character of a string. *)
Fixpoint last_char (s : string) : option ascii :=
  match s with
  | EmptyString => None
  | String c r =>
      match last_char r with
      | Some d => Some d
      | None => Some c
      end
  end.

(** ** Concrete inputs for the examples *)

(** Days from 1970-01-01 to a proleptic Gregorian date. *)
Definition days_from_civil (y m d : Z) : Z :=
  let y' := if m <=? 2 then y - 1 else y in
  let era := y' / 400 in
  let yoe := y' - era * 400 in
  let doy := (153 * ((m + 9) mod 12) + 2) / 5 + d - 1 in
  era * 146097 + (yoe * 365 + yoe / 4 - yoe / 100 + doy) - 719468.

(** [timestamp] on a machine whose local time is UTC. *)
Definition utc_timestamp (dt : Z * Z * Z * Z * Z * Z) : Z :=
  let '(y, mo, d, h, mi, s) := dt in
  days_from_civil y mo d * 86400 + h * 3600 + mi * 60 + s.

(** A keyed archive whose root object is [root], at UID 1. *)
Definition keyed_archive (root : value) : value :=
  VDict [("$objects", VList [VStr "$null"; root]);
         ("$top", VDict [("root", VUid 1)])].

(** A decoder for which the archive bytes at hand decode to [plist]. *)
Definition decodes_to (plist : value) : list byte -> result value :=
  fun _ => Ok plist.

(** [parse_document_archive] on an archive with the given root. *)
Definition parse_root (root : value) (zf : option ZipFile) : result Meta * Meta :=
  parse_document_archive (decodes_to (keyed_archive root)) utc_timestamp [] zf.

Definition entry (y mo d h mi s : Z) (data : list byte) : ZipInfo :=
  {| date_time := (y, mo, d, h, mi, s); content := data |}.

(** An archive whose root pointer is a plain string. *)
Definition archive_without_root_uid : value :=
  VDict [("$objects", VList [VStr "$null"; VDict []]);
         ("$top", VDict [("root", VStr "root")])].

(** An archive whose root UID is past the end of the object table. *)
Definition archive_dangling_root : value :=
  VDict [("$objects", VList [VStr "$null"]);
         ("$top", VDict [("root", VUid 7)])].

(** A root whose creation date is later than its modification date. *)
Definition late_creation_root : value :=
  VDict [("creationDate", VFloat (float_of_Z 700000000));
         ("lastModifiedDate", VFloat (float_of_Z 600000000))].

Definition png_signature : list byte := [x89; x50; x4e; x47; x0d; x0a; x1a; x0a].

(** A verifier that accepts the files that start with the PNG signature. *)
Definition has_png_signature (data : list byte) : bool :=
  match data with
  | x89 :: x50 :: x4e :: x47 :: x0d :: x0a :: x1a :: x0a :: _ => true
  | _ => false
  end.

Definition container_without_thumbnail : ZipFile :=
  [("Document.archive", entry 2024 1 1 0 0 0 [])].

Definition container_with_thumbnail (image : list byte) : ZipFile :=
  [("Document.archive", entry 2024 1 1 0 0 0 []);
   ("QuickLook/Thumbnail.png", entry 2024 3 9 12 30 8 image)].

(** A world with one document, at 2023-11-14 22:13:20 UTC. *)
Definition sketch_world : World :=
  {| files := {["/art/Sketch.procreate" := [x50; x4b]]};
     clock := 1700000000;
     stdout := [] |}.

(** [inspect_procreate] on a machine where the document's container is
    [zf] and its archive has an empty root record. *)
Definition inspect_sketch (zf : ZipFile) : result unit * World :=
  inspect_procreate (decodes_to (keyed_archive (VDict []))) utc_timestamp
    (fun _ => Ok zf) has_png_signature "/tmp/procreate_meta"
    "/art/Sketch.procreate" sketch_world.

(** A document with five layers, a colour profile record, a version and a
    creation date but no modification date. *)
Definition studio_root : list (string * value) :=
  [("orientation", VInt 2); ("layers", VUid 2); ("colorProfile", VUid 3);
   ("appVersion", VStr "5.3.2"); ("size", VStr "{2048, 1536}");
   ("creationDate", VFloat (float_of_Z 700000000))].

Definition studio_objects : list value :=
  [VStr "$null"; VDict studio_root;
   VDict [("NS.objects", VList [VUid 5; VUid 5; VUid 5; VUid 5; VUid 5])];
   VDict [("SiColorProfileArchiveICCNameKey", VUid 4); ("name", VStr "sRGB")];
   VStr "Display P3"; VDict []].

Definition studio_archive : value :=
  VDict [("$objects", VList studio_objects); ("$top", VDict [("root", VUid 1)])].

Definition parse_studio (zf : option ZipFile) : result Meta * Meta :=
  parse_document_archive (decodes_to studio_archive) utc_timestamp [] zf.

(** A container whose thumbnail entry has the all-zero DOS date. *)
Definition container_with_undated_thumbnail : ZipFile :=
  [("Document.archive", entry 2024 1 1 0 0 0 []);
   ("QuickLook/Thumbnail.png", entry 1980 0 0 0 0 0 png_signature)].

(** A container whose only entry is an archive with the all-zero DOS date. *)
Definition container_with_undated_archive : ZipFile :=
  [("Document.archive", entry 1980 0 0 0 0 0 [])].

(** A temporary directory at time 1000000: one old thumbnail, one recent
    thumbnail, one old file of another kind. *)
Definition sample_temp_dir : TempDir :=
  [("Sketch_100000.png", float_of_Z 100000);
   ("Sketch_900000.png", float_of_Z 900000);
   ("notes.txt", float_of_Z 100000)].

(** [inspect_procreate] on another path of the same machine, with a
    container that has no thumbnail. *)
Definition inspect_sketch_path (path : string) : result unit * World :=
  inspect_procreate (decodes_to (keyed_archive (VDict []))) utc_timestamp
    (fun _ => Ok container_without_thumbnail) has_png_signature "/tmp/procreate_meta"
    path sketch_world.

(** ** Properties of the helpers *)

Lemma dict_lookup_in k v (d : list (string * value)) :
  NoDup d.*1 -> (k, v) ∈ d -> dict_lookup k d = Some v.
Proof.
  induction d as [|[k' v'] d IH]; simpl.
  - intros _ Hin. now apply elem_of_nil in Hin.
  - intros [Hnotin Hnd]%NoDup_cons [Heq|Hin]%elem_of_cons.
    + inversion Heq; subst. now rewrite String.eqb_refl.
    + destruct (String.eqb_spec k k') as [->|Hne]; [|now apply IH].
      exfalso. apply Hnotin. now apply (list_elem_of_fmap_2 fst) in Hin.
Qed.

Lemma dict_lookup_notin k (d : list (string * value)) :
  k ∉ d.*1 -> dict_lookup k d = None.
Proof.
  induction d as [|[k' v'] d IH]; simpl; [reflexivity|].
  intros [Hne Hnotin]%not_elem_of_cons.
  destruct (String.eqb_spec k k') as [->|_]; [done|]. now apply IH.
Qed.

(** C4 (as amended).  [cfuid] returns the integer of a native [Uid] value,
    the value stored under ["CF$UID"] for every record that contains that
    key, whatever other keys the record has, and none for every other value:
    a record without the key, and every value that is neither a record nor a
    [Uid]. *)
Theorem cfuid_reference_shapes :
  (forall n, cfuid (VUid n) = VInt n) /\
  (forall d v, NoDup d.*1 -> ("CF$UID", v) ∈ d -> cfuid (VDict d) = v) /\
  (forall d, "CF$UID" ∉ d.*1 -> cfuid (VDict d) = VNone) /\
  (forall obj, (forall d, obj <> VDict d) -> (forall n, obj <> VUid n) ->
               cfuid obj = VNone).
Proof.
  repeat split.
  - intros d v Hnd Hin. simpl. now rewrite (dict_lookup_in _ _ _ Hnd Hin).
  - intros d Hnotin. simpl. now rewrite (dict_lookup_notin _ _ Hnotin).
  - intros obj Hd Hu. destruct obj; try reflexivity.
    + now destruct (Hu n).
    + now destruct (Hd d).
Qed.

Lemma cfuid_reference_shapes_witness :
  cfuid (VDict [("CF$UID", VInt 3)]) = VInt 3 /\
  cfuid (VDict [("name", VStr "sRGB"); ("CF$UID", VInt 3)]) = VInt 3 /\
  cfuid (VDict [("name", VStr "sRGB")]) = VNone /\
  cfuid (VStr "CF$UID") = VNone.
Proof.
  destruct cfuid_reference_shapes as (_ & Hkey & Hnokey & Hother).
  split; [|split; [|split]].
  - apply Hkey; [compute_done | apply elem_of_cons; now left].
  - apply Hkey; [compute_done | apply elem_of_cons; right; apply elem_of_cons; now left].
  - apply Hnokey. compute_done.
  - apply Hother; intros; discriminate.
Defined.

(** C4 (as stated) fails: an ordinary two-key record that contains a
    ["CF$UID"] key is taken for a reference, by [cfuid] and so by [resolve]. *)
Lemma cfuid_ordinary_record_counterexample :
  let record := VDict [("name", VStr "sRGB"); ("CF$UID", VInt 3)] in
  cfuid record = VInt 3 /\
  cfuid record <> VNone /\
  resolve (VList [VStr "$null"; VInt 10; VInt 20; VInt 30]) record = Ok (VInt 30).
Proof. repeat split. discriminate. Qed.

Lemma cond_Zopp_quot s a d :
  0 <= a -> 0 < d -> cond_Zopp s (a / d) = Z.quot (cond_Zopp s a) d.
Proof.
  intros Ha Hd. destruct s; simpl.
  - rewrite Z.quot_opp_l by lia. now rewrite Z.quot_div_nonneg by lia.
  - now rewrite Z.quot_div_nonneg by lia.
Qed.

(** [int] of a finite float is the quotient, rounded toward zero, of its
    value [(-1)^s * m * 2^e] written as a fraction of integers. *)
Lemma float_trunc_finite s m e :
  float_trunc (S754_finite s m e)
  = Ok (Z.quot (cond_Zopp s (Zpos m) * 2 ^ Z.max 0 e) (2 ^ Z.max 0 (- e))).
Proof.
  unfold float_trunc. f_equal.
  destruct (Z.le_gt_cases 0 e) as [He|He].
  - rewrite Z.max_r by lia. rewrite (Z.max_l 0 (- e)) by lia.
    rewrite Z.pow_0_r, Z.quot_1_r, Z.shiftl_mul_pow2 by lia.
    destruct s; simpl; lia.
  - rewrite Z.max_l by lia. rewrite (Z.max_r 0 (- e)) by lia.
    rewrite Z.pow_0_r, Z.mul_1_r, Z.shiftl_div_pow2 by lia.
    apply cond_Zopp_quot; [lia|]. apply Z.pow_pos_nonneg; lia.
Qed.

(** C7.  [apple_time_to_unix] maps null to null and, for every float [v],
    adds the offset 978307200 in binary64 and truncates the sum to an
    integer: when the sum is the finite float [(-1)^s * m * 2^e] the result
    is that number rounded toward zero, when it is a zero the result is 0;
    the reference epoch 0.0 maps to 978307200; an integer [n] maps to
    [n + 978307200]. *)
Theorem apple_time_to_unix_offset_then_truncate :
  apple_time_to_unix VNone = Ok VNone /\
  apple_time_to_unix (VFloat (S754_zero false)) = Ok (VInt 978307200) /\
  (forall v, apple_time_to_unix (VFloat v)
             = rmap VInt (float_trunc (float_add v (float_of_Z 978307200)))) /\
  (forall v s m e,
      float_add v (float_of_Z 978307200) = S754_finite s m e ->
      apple_time_to_unix (VFloat v)
      = Ok (VInt (Z.quot (cond_Zopp s (Zpos m) * 2 ^ Z.max 0 e) (2 ^ Z.max 0 (- e))))) /\
  (forall v s,
      float_add v (float_of_Z 978307200) = S754_zero s ->
      apple_time_to_unix (VFloat v) = Ok (VInt 0)) /\
  (forall n, apple_time_to_unix (VInt n) = Ok (VInt (n + 978307200))).
Proof.
  split; [reflexivity|]. split; [reflexivity|].
  assert (Hgen : forall v, apple_time_to_unix (VFloat v)
             = rmap VInt (float_trunc (float_add v (float_of_Z 978307200)))).
  { intros v. reflexivity. }
  split; [exact Hgen|]. split; [|split].
  - intros v s m e Hsum. rewrite Hgen, Hsum, float_trunc_finite. reflexivity.
  - intros v s Hsum. rewrite Hgen, Hsum. reflexivity.
  - intros n. reflexivity.
Qed.

Lemma apple_time_to_unix_offset_then_truncate_witness :
  float_add (float_of_decimal false 15 (-1)) (float_of_Z 978307200)
    = S754_finite false 8206635616960512 (-23) /\
  apple_time_to_unix (VFloat (float_of_decimal false 15 (-1))) = Ok (VInt 978307201) /\
  float_add (float_of_Z (-978307200)) (float_of_Z 978307200) = S754_zero false /\
  apple_time_to_unix (VFloat (float_of_Z (-978307200))) = Ok (VInt 0).
Proof.
  destruct apple_time_to_unix_offset_then_truncate as (_ & _ & _ & Hfin & Hzero & _).
  split; [vm_compute; reflexivity|].
  split.
  { rewrite (Hfin (float_of_decimal false 15 (-1)) false 8206635616960512%positive (-23));
      [reflexivity | vm_compute; reflexivity]. }
  split; [vm_compute; reflexivity|].
  apply (Hzero (float_of_Z (-978307200)) false). vm_compute; reflexivity.
Defined.

(** ** Reasoning about the [meta] monad *)

Lemma bind_ok {A B} (c : M A) (k : A -> M B) m b m2 :
  bind c k m = (Ok b, m2) ->
  exists a m1, c m = (Ok a, m1) /\ k a m1 = (Ok b, m2).
Proof.
  unfold bind. destruct (c m) as [[a|e] m1]; [eauto | discriminate].
Qed.

Lemma store_ok k r m u m' :
  store k r m = (Ok u, m') -> exists v, r = Ok v /\ m' = <[k := v]> m.
Proof.
  unfold store, bind, lift, assign. destruct r as [v|e]; [|discriminate].
  intros [= _ <-]. eauto.
Qed.

Lemma store_frame k r m res m' j :
  store k r m = (res, m') -> j <> k -> m' !! j = m !! j.
Proof.
  unfold store, bind, lift, assign. destruct r as [v|e].
  - intros [= _ <-] Hne. now rewrite lookup_insert_ne.
  - now intros [= _ <-].
Qed.

(** Decides a lookup in a dictionary built by a chain of assignments. *)
Ltac lookup_fields :=
  unfold scalar_fields;
  repeat (rewrite lookup_insert_ne by done);
  rewrite ?lookup_insert_eq; try reflexivity; eauto.

Lemma date_missing_spec m :
  date_missing m =
  (match m !! "created_at" with
   | None => Raise KeyError
   | Some c =>
       if is_none c then Ok true
       else match m !! "updated_at" with
            | None => Raise KeyError
            | Some u => Ok (is_none u)
            end
   end, m).
Proof.
  unfold date_missing, bind, read, ret.
  destruct (m !! "created_at") as [c|]; [|reflexivity].
  destruct (is_none c); [reflexivity|].
  now destruct (m !! "updated_at").
Qed.

(** The clamp only ever writes [created_at], and what it writes is the
    value of [updated_at]. *)
Lemma clamp_block_cases m res m' :
  clamp_block m = (res, m') ->
  m' = m \/
  (exists x y, m !! "created_at" = Some (VInt x) /\ m !! "updated_at" = Some (VInt y) /\
               y < x /\ res = Ok tt /\ m' = <["created_at" := VInt y]> m).
Proof.
  unfold clamp_block. unfold bind at 1. rewrite date_missing_spec.
  destruct (m !! "created_at") as [c|] eqn:Hc; [|intros [= _ <-]; now left].
  destruct (is_none c) eqn:Hnc; [intros [= _ <-]; now left|].
  destruct (m !! "updated_at") as [u|] eqn:Hu; [|intros [= _ <-]; now left].
  destruct (is_none u) eqn:Hnu; [intros [= _ <-]; now left|].
  unfold bind, read, lift, ret, assign. rewrite Hc, Hu.
  destruct c; try (intros [= _ <-]; now left).
  destruct u; try (intros [= _ <-]; now left).
  simpl. destruct (z0 <? z) eqn:Hlt.
  - rewrite Hu. intros [= <- <-]. right. exists z, z0. repeat split; lia.
  - intros [= _ <-]. now left.
Qed.

Lemma clamp_block_frame m res m' j :
  clamp_block m = (res, m') -> j <> "created_at" -> m' !! j = m !! j.
Proof.
  intros H Hne. apply clamp_block_cases in H as [->|(x & y & _ & _ & _ & _ & ->)];
    [reflexivity|]. now rewrite lookup_insert_ne.
Qed.

(** After a clamp that returned, two dates that are both present are
    integers in order. *)
Lemma clamp_block_ordered m m' c u :
  clamp_block m = (Ok tt, m') ->
  m' !! "created_at" = Some c -> m' !! "updated_at" = Some u ->
  c <> VNone -> u <> VNone ->
  exists x y, c = VInt x /\ u = VInt y /\ x <= y.
Proof.
  intros H Hc Hu Hcn Hun.
  destruct (clamp_block_cases _ _ _ H) as [->|(x & y & _ & Hy & _ & _ & ->)].
  - revert H. unfold clamp_block. unfold bind at 1. rewrite date_missing_spec, Hc.
    destruct c; try congruence; simpl; rewrite Hu;
      destruct u; try congruence; simpl;
      unfold bind, read, lift, ret, assign; rewrite Hc, ?Hu; simpl; try discriminate.
    destruct (z0 <? z) eqn:Hlt.
    + rewrite Hu. intros [= Heq]. exfalso.
      assert (Hl : (<["created_at" := VInt z0]> m) !! "created_at" = m !! "created_at")
        by now rewrite Heq.
      rewrite lookup_insert_eq, Hc in Hl. inversion Hl; lia.
    + intros _. exists z, z0. repeat split; lia.
  - rewrite lookup_insert_eq in Hc. rewrite lookup_insert_ne in Hu by done.
    rewrite Hy in Hu. inversion Hc; inversion Hu; subst.
    exists y, y. repeat split; lia.
Qed.

Lemma canvas_of_string_frame s m res m' j :
  canvas_of_string s m = (res, m') ->
  j <> "canvas_width" -> j <> "canvas_height" -> m' !! j = m !! j.
Proof.
  unfold canvas_of_string.
  destruct (map (strip is_space) (split "," (strip (in_chars "{}") s)))
    as [|p0 [|p1 [|p2 ps]]]; try (intros [= _ <-]; reflexivity).
  unfold bind, lift, assign.
  destruct (rbind (float_of_str p0) float_trunc); [|intros [= _ <-]; reflexivity].
  destruct (rbind (float_of_str p1) float_trunc); intros [= _ <-] Hw Hh;
    now rewrite ?lookup_insert_ne by done.
Qed.

Lemma canvas_block_frame objects root m res m' j :
  canvas_block objects root m = (res, m') ->
  j <> "canvas_width" -> j <> "canvas_height" -> m' !! j = m !! j.
Proof.
  unfold canvas_block. unfold bind at 1, lift at 1.
  destruct (get_or root "canvasSize" ["size"]) as [sz|]; [|intros [= _ <-]; reflexivity].
  unfold bind at 1, lift at 1.
  destruct (resolve objects sz) as [canvas|]; [|intros [= _ <-]; reflexivity].
  intros H Hw Hh.
  assert (Hzero : forall r m1,
             (assign "canvas_width" (VInt 0);; assign "canvas_height" (VInt 0)) m = (r, m1) ->
             m1 !! j = m !! j).
  { unfold bind, assign. intros r m1 [= _ <-]. now rewrite !lookup_insert_ne by done. }
  destruct canvas; try (eapply Hzero; eassumption).
  - revert H. unfold try_except.
    destruct (canvas_of_string s m) as [[u|e] m1] eqn:Hs.
    + intros [= _ <-]. eapply canvas_of_string_frame; eassumption.
    + unfold bind, assign. intros [= _ <-]. rewrite !lookup_insert_ne by done.
      eapply canvas_of_string_frame; eassumption.
  - revert H. unfold bind, lift, assign.
    destruct (py_int (dict_get d "width" (VInt 0))); [|intros [= _ <-]; reflexivity].
    destruct (py_int (dict_get d "height" (VInt 0))); intros [= _ <-];
      now rewrite ?lookup_insert_ne by done.
Qed.

Lemma dates_block_ok root m u0 m' :
  dates_block root m = (Ok u0, m') ->
  exists created modified c u,
    created_value root = Ok created /\ modified_value root = Ok modified /\
    apple_time_to_unix created = Ok c /\ apple_time_to_unix modified = Ok u /\
    m' = <["updated_at" := u]> (<["created_at" := c]> m).
Proof.
  unfold dates_block, bind, lift, assign.
  destruct (created_value root) as [created|]; [|discriminate].
  destruct (modified_value root) as [modified|]; [|discriminate].
  destruct (apple_time_to_unix created) as [c|] eqn:Hc; [|discriminate].
  destruct (apple_time_to_unix modified) as [u|] eqn:Hu; [|discriminate].
  intros [= _ <-]. now exists created, modified, c, u.
Qed.

Section Fallback.

Variable timestamp : Z * Z * Z * Z * Z * Z -> Z.

Lemma zip_fallback_frame zf m res m' j :
  zip_fallback_block timestamp zf m = (res, m') ->
  j <> "created_at" -> j <> "updated_at" -> m' !! j = m !! j.
Proof.
  unfold zip_fallback_block. destruct zf as [z|]; [|intros [= _ <-]; reflexivity].
  unfold bind at 1. rewrite date_missing_spec.
  intros H Hc Hu. revert H.
  destruct (match m !! "created_at" with
            | Some c => if is_none c then Ok true
                        else match m !! "updated_at" with
                             | Some u => Ok (is_none u)
                             | None => Raise KeyError
                             end
            | None => Raise KeyError
            end) as [[|]|]; try (intros [= _ <-]; reflexivity).
  unfold bind, lift, ret, read, assign.
  destruct (zip_timestamp timestamp z) as [ts|]; [|intros [= _ <-]; reflexivity].
  destruct (is_none ts); [intros [= _ <-]; reflexivity|].
  destruct (m !! "created_at") as [c|]; [|intros [= _ <-]; reflexivity].
  destruct (is_none c).
  - rewrite lookup_insert_ne by done.
    destruct (m !! "updated_at") as [u|]; [|intros [= _ <-]; now rewrite lookup_insert_ne].
    destruct (is_none u); intros [= _ <-]; now rewrite ?lookup_insert_ne by done.
  - destruct (m !! "updated_at") as [u|]; [|intros [= _ <-]; reflexivity].
    destruct (is_none u); intros [= _ <-]; now rewrite ?lookup_insert_ne by done.
Qed.

(** With both dates still null, the fallback stores what the container
    supplies under both keys, or nothing when it supplies nothing. *)
Lemma zip_fallback_fills zf m t :
  m !! "created_at" = Some VNone -> m !! "updated_at" = Some VNone ->
  container_timestamp timestamp zf = Ok t ->
  zip_fallback_block timestamp zf m
  = (Ok tt, if is_none t then m
            else <["updated_at" := t]> (<["created_at" := t]> m)).
Proof.
  intros Hc Hu Ht. unfold zip_fallback_block.
  destruct zf as [z|]; simpl in Ht.
  - unfold bind at 1. rewrite date_missing_spec, Hc. simpl.
    unfold bind, lift, ret, read, assign. rewrite Ht.
    destruct (is_none t) eqn:Hn; [reflexivity|].
    rewrite Hc. simpl. rewrite lookup_insert_ne by done. rewrite Hu. reflexivity.
  - inversion Ht; subst. reflexivity.
Qed.

Lemma zip_timestamp_thumbnail z info :
  zip_find "QuickLook/Thumbnail.png" z = Some info ->
  datetime_valid (date_time info) = true ->
  zip_timestamp timestamp z = Ok (VInt (timestamp (date_time info))).
Proof.
  intros Hfind Hvalid. unfold zip_timestamp, entry_timestamp, getinfo.
  rewrite Hfind. simpl. now rewrite Hvalid.
Qed.

Lemma zip_timestamp_archive z info :
  zip_find "QuickLook/Thumbnail.png" z = None ->
  zip_find "Document.archive" z = Some info ->
  datetime_valid (date_time info) = true ->
  zip_timestamp timestamp z = Ok (VInt (timestamp (date_time info))).
Proof.
  intros Hnone Hfind Hvalid. unfold zip_timestamp, entry_timestamp, getinfo.
  rewrite Hnone, Hfind. simpl. now rewrite Hvalid.
Qed.

(** The container supplies an integer or nothing. *)
Lemma container_timestamp_shape zf t :
  container_timestamp timestamp zf = Ok t -> t = VNone \/ exists ts, t = VInt ts.
Proof.
  destruct zf as [z|]; simpl; [|intros [= <-]; now left].
  unfold zip_timestamp.
  destruct (entry_timestamp timestamp z "QuickLook/Thumbnail.png") as [t1|[]]; simpl;
    try discriminate; try (intros [= <-]; right; eauto).
  destruct (entry_timestamp timestamp z "Document.archive"); intros [= <-]; eauto.
Qed.

End Fallback.

(** The clamp on two integer dates. *)
Lemma clamp_block_ints (m : Meta) x y :
  m !! "created_at" = Some (VInt x) -> m !! "updated_at" = Some (VInt y) ->
  clamp_block m = (Ok tt, if y <? x then <["created_at" := VInt y]> m else m).
Proof.
  intros Hc Hu. unfold clamp_block. unfold bind at 1.
  rewrite date_missing_spec, Hc. simpl. rewrite Hu. simpl.
  unfold bind, read, lift, ret, assign. rewrite Hc, Hu. simpl.
  destruct (y <? x); [now rewrite Hu | reflexivity].
Qed.

Lemma clamp_block_null (m : Meta) :
  m !! "created_at" = Some VNone -> clamp_block m = (Ok tt, m).
Proof.
  intros Hc. unfold clamp_block. unfold bind at 1.
  now rewrite date_missing_spec, Hc.
Qed.

(** ** Properties of [parse_document_archive] *)

Section Properties.

Variable readPlistFromString : list byte -> result value.
Variable timestamp : Z * Z * Z * Z * Z * Z -> Z.

Local Abbreviation parse := (parse_document_archive readPlistFromString timestamp).

(** A call that returns went through every block, in order. *)
Lemma extract_fields_ok objects root zf meta m' :
  extract_fields timestamp objects root zf ∅ = (Ok meta, m') ->
  exists m1 dpi ori lc ts cp ver m8 m9,
    canvas_block objects root ∅ = (Ok tt, m1) /\
    dpi_value root = Ok dpi /\
    orientation_value root = Ok ori /\
    layer_count_value objects root = Ok lc /\
    time_spent_value root = Ok ts /\
    color_profile_value objects root = Ok cp /\
    version_value root = Ok ver /\
    dates_block root (scalar_fields m1 dpi ori lc ts cp ver) = (Ok tt, m8) /\
    zip_fallback_block timestamp zf m8 = (Ok tt, m9) /\
    clamp_block m9 = (Ok tt, meta) /\
    m' = meta.
Proof.
  unfold extract_fields. intros H.
  apply bind_ok in H as ([] & m1 & Hcanvas & H).
  apply bind_ok in H as ([] & m2 & (dpi & Hdpi & ->)%store_ok & H).
  apply bind_ok in H as ([] & m3 & (ori & Hori & ->)%store_ok & H).
  apply bind_ok in H as ([] & m4 & (lc & Hlc & ->)%store_ok & H).
  apply bind_ok in H as ([] & m5 & (ts & Hts & ->)%store_ok & H).
  apply bind_ok in H as ([] & m6 & (cp & Hcp & ->)%store_ok & H).
  apply bind_ok in H as ([] & m7 & (ver & Hver & ->)%store_ok & H).
  apply bind_ok in H as ([] & m8 & Hdates & H).
  apply bind_ok in H as ([] & m9 & Hzip & H).
  apply bind_ok in H as ([] & m10 & Hclamp & H).
  inversion H; subst.
  exists m1, dpi, ori, lc, ts, cp, ver, m8, m9. unfold scalar_fields. tauto.
Qed.

(** C2.  When the root pointer carries no UID the call raises the
    [RuntimeError] of line 98; when the UID does not index the object table
    the lookup's exception propagates; when the object it resolves to is not
    a record the first [root.get] raises.  In all three cases the call fails
    with [meta] still empty: no field has been extracted. *)
Theorem parse_fails_before_any_field :
  forall data zf plist objects top root_ref,
    readPlistFromString data = Ok plist ->
    py_getitem plist (VStr "$objects") = Ok objects ->
    py_getitem plist (VStr "$top") = Ok top ->
    py_getitem top (VStr "root") = Ok root_ref ->
    (cfuid root_ref = VNone -> parse data zf = (Raise RuntimeError, ∅)) /\
    (forall e, cfuid root_ref <> VNone ->
               py_getitem objects (cfuid root_ref) = Raise e ->
               parse data zf = (Raise e, ∅)) /\
    (forall root, cfuid root_ref <> VNone ->
                  py_getitem objects (cfuid root_ref) = Ok root ->
                  (forall d, root <> VDict d) ->
                  parse data zf = (Raise AttributeError, ∅)).
Proof.
  intros data zf plist objects top root_ref Hplist Hobjects Htop Href.
  unfold parse_document_archive, resolve_root.
  rewrite Hplist. simpl. rewrite Hobjects. simpl. rewrite Htop. simpl.
  rewrite Href. simpl.
  split; [|split].
  - intros ->. reflexivity.
  - intros e Hsome Hget.
    destruct (cfuid root_ref); try congruence; simpl; now rewrite Hget.
  - intros root Hsome Hget Hnot.
    assert (Hfail : extract_fields timestamp objects root zf ∅ = (Raise AttributeError, ∅)).
    { destruct root; try reflexivity. now destruct (Hnot d). }
    destruct (cfuid root_ref); try congruence; simpl; now rewrite Hget.
Qed.

(** C6.  In every output where both dates are non-null they are integers
    with [created_at <= updated_at]; the last block stores the value of
    [updated_at] under [created_at] when [created_at] is the later one and
    leaves [updated_at], and every other field, as they were, and it changes
    nothing when the dates are in order. *)
Theorem created_at_never_after_updated_at :
  (forall data zf meta c u,
      fst (parse data zf) = Ok meta ->
      meta !! "created_at" = Some c -> meta !! "updated_at" = Some u ->
      c <> VNone -> u <> VNone ->
      exists x y, c = VInt x /\ u = VInt y /\ x <= y) /\
  (forall (m : Meta) x y,
      m !! "created_at" = Some (VInt x) -> m !! "updated_at" = Some (VInt y) ->
      clamp_block m = (Ok tt, if y <? x then <["created_at" := VInt y]> m else m)).
Proof.
  split.
  - intros data zf meta c u Hparse Hc Hu Hcn Hun.
    unfold parse_document_archive in Hparse.
    destruct (resolve_root readPlistFromString data) as [[objects root]|]; [|discriminate].
    destruct (extract_fields timestamp objects root zf ∅) as [r m'] eqn:Hext.
    simpl in Hparse. subst r.
    apply extract_fields_ok in Hext
      as (m1 & dpi & ori & lc & ts & cp & ver & m8 & m9 & _ & _ & _ & _ & _ & _ & _ & _ & _ & Hclamp & _).
    eapply clamp_block_ordered; eassumption.
  - intros m x y Hc Hu. now apply clamp_block_ints.
Qed.

(** What a returned dictionary holds: the scalar fields as computed, on top
    of the canvas block's state, under every key but the two dates. *)
Lemma parse_ok_fields data zf objects root meta :
  resolve_root readPlistFromString data = Ok (objects, root) ->
  fst (parse data zf) = Ok meta ->
  exists m1 dpi ori lc ts cp ver m8 m9,
    canvas_block objects root ∅ = (Ok tt, m1) /\
    dpi_value root = Ok dpi /\
    orientation_value root = Ok ori /\
    layer_count_value objects root = Ok lc /\
    time_spent_value root = Ok ts /\
    color_profile_value objects root = Ok cp /\
    version_value root = Ok ver /\
    dates_block root (scalar_fields m1 dpi ori lc ts cp ver) = (Ok tt, m8) /\
    zip_fallback_block timestamp zf m8 = (Ok tt, m9) /\
    clamp_block m9 = (Ok tt, meta) /\
    (forall j, j <> "created_at" -> j <> "updated_at" ->
               meta !! j = scalar_fields m1 dpi ori lc ts cp ver !! j).
Proof.
  intros Hroot Hparse. unfold parse_document_archive in Hparse. rewrite Hroot in Hparse.
  destruct (extract_fields timestamp objects root zf ∅) as [r m'] eqn:Hext.
  simpl in Hparse. subst r.
  apply extract_fields_ok in Hext
    as (m1 & dpi & ori & lc & ts & cp & ver & m8 & m9 & Hcanvas & Hdpi & Hori & Hlc & Hts
        & Hcp & Hver & Hdates & Hzip & Hclamp & _).
  exists m1, dpi, ori, lc, ts, cp, ver, m8, m9. repeat (split; [assumption|]).
  intros j Hjc Hju.
  rewrite (clamp_block_frame _ _ _ j Hclamp Hjc).
  rewrite (zip_fallback_frame _ _ _ _ _ j Hzip Hjc Hju).
  apply dates_block_ok in Hdates as (? & ? & ? & ? & _ & _ & _ & _ & ->).
  now rewrite !lookup_insert_ne by done.
Qed.

(** C10.  When neither chain of date keys yields a value and the container
    stores a valid date for the thumbnail entry, or has no thumbnail entry
    and stores one for the archive entry, every output has [created_at] and
    [updated_at] both equal to that entry's timestamp. *)
Theorem container_timestamp_fills_both_dates :
  forall data z objects root info meta,
    resolve_root readPlistFromString data = Ok (objects, root) ->
    created_value root = Ok VNone ->
    modified_value root = Ok VNone ->
    (zip_find "QuickLook/Thumbnail.png" z = Some info \/
     (zip_find "QuickLook/Thumbnail.png" z = None /\
      zip_find "Document.archive" z = Some info)) ->
    datetime_valid (date_time info) = true ->
    fst (parse data (Some z)) = Ok meta ->
    meta !! "created_at" = Some (VInt (timestamp (date_time info))) /\
    meta !! "updated_at" = Some (VInt (timestamp (date_time info))).
Proof.
  intros data z objects root info meta Hroot Hcreated Hmodified Hentry Hvalid Hparse.
  destruct (parse_ok_fields _ _ _ _ _ Hroot Hparse)
    as (m1 & dpi & ori & lc & ts & cp & ver & m8 & m9 & _ & _ & _ & _ & _ & _ & _
        & Hdates & Hzip & Hclamp & _).
  apply dates_block_ok in Hdates as (created & modified & c & u & Hc & Hm & Hac & Hau & ->).
  rewrite Hcreated in Hc. rewrite Hmodified in Hm.
  inversion Hc; inversion Hm; subst created modified.
  inversion Hac; inversion Hau; subst c u.
  assert (Hts : container_timestamp timestamp (Some z)
                = Ok (VInt (timestamp (date_time info)))).
  { destruct Hentry as [Hthumb|[Hnone Harch]]; simpl.
    - now apply zip_timestamp_thumbnail.
    - now apply zip_timestamp_archive. }
  set (m8 := <["updated_at" := VNone]> (<["created_at" := VNone]> _)) in Hzip.
  assert (Hc8 : m8 !! "created_at" = Some VNone)
    by (subst m8; now rewrite lookup_insert_ne, lookup_insert_eq by done).
  assert (Hu8 : m8 !! "updated_at" = Some VNone)
    by (subst m8; now rewrite lookup_insert_eq).
  rewrite (zip_fallback_fills timestamp _ _ _ Hc8 Hu8 Hts) in Hzip.
  simpl in Hzip. inversion Hzip; subst m9. clear Hzip.
  set (t := timestamp (date_time info)) in *.
  rewrite (clamp_block_ints _ t t) in Hclamp;
    [|now rewrite lookup_insert_ne, lookup_insert_eq by done|now rewrite lookup_insert_eq].
  rewrite Z.ltb_irrefl in Hclamp. inversion Hclamp; subst meta.
  split; [now rewrite lookup_insert_ne, lookup_insert_eq by done|now rewrite lookup_insert_eq].
Qed.

Lemma get_or_first root k ks v :
  py_get root k = Ok v -> truthy v = true -> get_or root k ks = Ok v.
Proof.
  intros Hget Htrue. destruct ks; simpl; rewrite Hget; [reflexivity|].
  simpl. now rewrite Htrue.
Qed.

Lemma get_or_second d k k' :
  truthy (dict_get d k VNone) = false ->
  get_or (VDict d) k [k'] = Ok (dict_get d k' VNone).
Proof. intros Hfalse. simpl. now rewrite Hfalse. Qed.

(** C5 (as amended).  The lookup is first-true-wins.  When the primary key
    ([dpi], [timeSpentDrawing]) holds a true value, the field is [int] of
    that value whatever the record holds under the legacy key, in the value
    computed and in every output.  When the primary key is missing or holds
    a false value such as 0, the value under the legacy key is used. *)
Theorem primary_key_wins_when_true :
  (forall d v,
      dict_lookup "dpi" d = Some v -> truthy v = true ->
      dpi_value (VDict d) = rmap VInt (py_int v)) /\
  (forall d v,
      dict_lookup "timeSpentDrawing" d = Some v -> truthy v = true ->
      time_spent_value (VDict d) = rmap VInt (py_int v)) /\
  (forall data zf objects d meta,
      resolve_root readPlistFromString data = Ok (objects, VDict d) ->
      fst (parse data zf) = Ok meta ->
      (forall v, dict_lookup "dpi" d = Some v -> truthy v = true ->
                 exists z, py_int v = Ok z /\ meta !! "dpi" = Some (VInt z)) /\
      (forall v, dict_lookup "timeSpentDrawing" d = Some v -> truthy v = true ->
                 exists z, py_int v = Ok z /\ meta !! "time_spent" = Some (VInt z))) /\
  (forall d,
      truthy (dict_get d "dpi" VNone) = false ->
      dpi_value (VDict d)
      = int_or_zero (dict_get d "SilicaDocumentArchiveDPIKey" VNone)) /\
  (forall d,
      truthy (dict_get d "timeSpentDrawing" VNone) = false ->
      time_spent_value (VDict d)
      = int_or_zero (dict_get d "SilicaDocumentTrackedTimeKey" VNone)).
Proof.
  assert (Hdpi : forall d v,
      dict_lookup "dpi" d = Some v -> truthy v = true ->
      dpi_value (VDict d) = rmap VInt (py_int v)).
  { intros d v Hk Ht. unfold dpi_value.
    rewrite (get_or_first _ _ _ v); [|unfold py_get, dict_get; now rewrite Hk|assumption].
    simpl. unfold int_or_zero. now rewrite Ht. }
  assert (Htime : forall d v,
      dict_lookup "timeSpentDrawing" d = Some v -> truthy v = true ->
      time_spent_value (VDict d) = rmap VInt (py_int v)).
  { intros d v Hk Ht. unfold time_spent_value.
    rewrite (get_or_first _ _ _ v); [|unfold py_get, dict_get; now rewrite Hk|assumption].
    simpl. unfold int_or_zero. now rewrite Ht. }
  split; [exact Hdpi|]. split; [exact Htime|]. split; [|split].
  - intros data zf objects d meta Hroot Hparse.
    destruct (parse_ok_fields _ _ _ _ _ Hroot Hparse)
      as (m1 & dpi & ori & lc & ts & cp & ver & m8 & m9 & _ & Hd & _ & _ & Ht & _ & _
          & _ & _ & _ & Hframe).
    split; intros v Hk Htrue.
    + rewrite (Hdpi _ _ Hk Htrue) in Hd. destruct (py_int v) as [z|]; [|discriminate].
      inversion Hd; subst dpi. exists z. split; [reflexivity|].
      rewrite Hframe by done. unfold scalar_fields.
      now rewrite !lookup_insert_ne, lookup_insert_eq by done.
    + rewrite (Htime _ _ Hk Htrue) in Ht. destruct (py_int v) as [z|]; [|discriminate].
      inversion Ht; subst ts. exists z. split; [reflexivity|].
      rewrite Hframe by done. unfold scalar_fields.
      now rewrite !lookup_insert_ne, lookup_insert_eq by done.
  - intros d Hfalse. unfold dpi_value. now rewrite get_or_second.
  - intros d Hfalse. unfold time_spent_value. now rewrite get_or_second.
Qed.

(** The forward direction: the blocks' results put together. *)
Lemma extract_fields_run objects root zf m1 dpi ori lc ts cp ver m8 m9 meta :
  canvas_block objects root ∅ = (Ok tt, m1) ->
  dpi_value root = Ok dpi ->
  orientation_value root = Ok ori ->
  layer_count_value objects root = Ok lc ->
  time_spent_value root = Ok ts ->
  color_profile_value objects root = Ok cp ->
  version_value root = Ok ver ->
  dates_block root (scalar_fields m1 dpi ori lc ts cp ver) = (Ok tt, m8) ->
  zip_fallback_block timestamp zf m8 = (Ok tt, m9) ->
  clamp_block m9 = (Ok tt, meta) ->
  extract_fields timestamp objects root zf ∅ = (Ok meta, meta).
Proof.
  intros Hcanvas Hdpi Hori Hlc Hts Hcp Hver Hdates Hzip Hclamp.
  unfold extract_fields, scalar_fields in *.
  unfold bind at 1. rewrite Hcanvas.
  unfold bind at 1, store, bind, lift, assign. rewrite Hdpi, Hori, Hlc, Hts, Hcp, Hver.
  now rewrite Hdates, Hzip, Hclamp.
Qed.

(** *** Fields whose keys are missing *)

Lemma canvas_block_missing objects d (m : Meta) :
  dict_get d "canvasSize" VNone = VNone -> dict_get d "size" VNone = VNone ->
  canvas_block objects (VDict d) m
  = (Ok tt, <["canvas_height" := VInt 0]> (<["canvas_width" := VInt 0]> m)).
Proof.
  intros H1 H2. unfold canvas_block, bind, lift, assign. simpl. rewrite H1. simpl.
  now rewrite H2.
Qed.

Lemma dpi_value_missing d :
  dict_get d "dpi" VNone = VNone ->
  dict_get d "SilicaDocumentArchiveDPIKey" VNone = VNone ->
  dpi_value (VDict d) = Ok (VInt 0).
Proof. intros H1 H2. unfold dpi_value. simpl. rewrite H1. simpl. now rewrite H2. Qed.

Lemma orientation_value_missing d :
  dict_get d "orientation" VNone = VNone ->
  orientation_value (VDict d) = Ok (VStr "unknown").
Proof. intros H1. unfold orientation_value. simpl. now rewrite H1. Qed.

Lemma layer_count_value_missing objects d :
  dict_get d "layerCount" VNone = VNone -> dict_get d "layers" VNone = VNone ->
  layer_count_value objects (VDict d) = Ok (VInt 0).
Proof.
  intros H1 H2. unfold layer_count_value, count_layers. simpl. rewrite H1. simpl.
  now rewrite H2.
Qed.

Lemma time_spent_value_missing d :
  dict_get d "timeSpentDrawing" VNone = VNone ->
  dict_get d "SilicaDocumentTrackedTimeKey" VNone = VNone ->
  time_spent_value (VDict d) = Ok (VInt 0).
Proof. intros H1 H2. unfold time_spent_value. simpl. rewrite H1. simpl. now rewrite H2. Qed.

Lemma color_profile_value_missing objects d :
  dict_get d "colorProfile" VNone = VNone ->
  color_profile_value objects (VDict d) = Ok VNone.
Proof. intros H1. unfold color_profile_value. simpl. now rewrite H1. Qed.

Lemma version_value_missing d :
  dict_get d "appVersion" VNone = VNone -> dict_get d "version" VNone = VNone ->
  version_value (VDict d) = Ok VNone.
Proof. intros H1 H2. unfold version_value. simpl. rewrite H1. simpl. now rewrite H2. Qed.

Lemma created_value_missing d :
  dict_get d "creationDate" VNone = VNone ->
  dict_get d "SilicaDocumentArchiveCreationDateKey" VNone = VNone ->
  dict_get d "documentCreationDate" VNone = VNone ->
  created_value (VDict d) = Ok VNone.
Proof.
  intros H1 H2 H3. unfold created_value. simpl. rewrite H1. simpl. rewrite H2. simpl.
  now rewrite H3.
Qed.

Lemma modified_value_missing d :
  dict_get d "lastModifiedDate" VNone = VNone ->
  dict_get d "SilicaDocumentArchiveModificationDateKey" VNone = VNone ->
  dict_get d "modificationDate" VNone = VNone ->
  modified_value (VDict d) = Ok VNone.
Proof.
  intros H1 H2 H3. unfold modified_value. simpl. rewrite H1. simpl. rewrite H2. simpl.
  now rewrite H3.
Qed.

(** The fallback writes the container timestamp under one or both of the
    date keys, or nothing. *)
Lemma zip_fallback_cases zf (m : Meta) res m' :
  zip_fallback_block timestamp zf m = (res, m') ->
  m' = m \/
  exists ts, m' = <["created_at" := ts]> m \/ m' = <["updated_at" := ts]> m \/
             m' = <["updated_at" := ts]> (<["created_at" := ts]> m).
Proof.
  unfold zip_fallback_block. destruct zf as [z|]; [|intros [= _ <-]; now left].
  unfold bind at 1. rewrite date_missing_spec.
  destruct (match m !! "created_at" with
            | Some c => if is_none c then Ok true
                        else match m !! "updated_at" with
                             | Some u => Ok (is_none u)
                             | None => Raise KeyError
                             end
            | None => Raise KeyError
            end) as [[|]|]; try (intros [= _ <-]; now left).
  unfold bind, lift, ret, read, assign.
  destruct (zip_timestamp timestamp z) as [ts|]; [|intros [= _ <-]; now left].
  destruct (is_none ts); [intros [= _ <-]; now left|].
  destruct (m !! "created_at") as [c|]; [|intros [= _ <-]; now left].
  destruct (is_none c).
  - rewrite lookup_insert_ne by done.
    destruct (m !! "updated_at") as [u|]; [|intros [= _ <-]; right; eauto].
    destruct (is_none u); intros [= _ <-]; right; eauto.
  - destruct (m !! "updated_at") as [u|]; [|intros [= _ <-]; now left].
    destruct (is_none u); intros [= _ <-]; [right; eauto|now left].
Qed.

Lemma zip_fallback_keeps zf (m : Meta) res m' j :
  zip_fallback_block timestamp zf m = (res, m') ->
  is_Some (m !! j) -> is_Some (m' !! j).
Proof.
  intros H Hj.
  apply zip_fallback_cases in H as [-> | (ts & [-> | [-> | ->]])];
    rewrite ?lookup_insert_is_Some'; auto.
Qed.

(** C1 (as amended).  For a decodable archive whose root is a record:
    (a) when every key the extractor consults is missing or null, and the
    container's timestamp can be read, the call returns, and the result has
    canvas 0 by 0, dpi 0, orientation "unknown", layer count 0, time spent
    0, a null colour profile and version, and both dates null or both the
    container timestamp;
    (b) whenever the call returns, the result contains [dpi], [orientation],
    [layer_count], [time_spent], [color_profile], [procreate_version],
    [created_at] and [updated_at], and each of the canvas size, dpi,
    orientation, layer count, time spent, colour profile and version fields
    whose keys are missing or null holds its default. *)
Theorem missing_keys_take_defaults :
  (forall data zf objects d t,
      resolve_root readPlistFromString data = Ok (objects, VDict d) ->
      (forall k, k ∈ consulted_keys -> dict_get d k VNone = VNone) ->
      container_timestamp timestamp zf = Ok t ->
      exists meta,
        parse data zf = (Ok meta, meta) /\
        meta !! "canvas_width" = Some (VInt 0) /\
        meta !! "canvas_height" = Some (VInt 0) /\
        meta !! "dpi" = Some (VInt 0) /\
        meta !! "orientation" = Some (VStr "unknown") /\
        meta !! "layer_count" = Some (VInt 0) /\
        meta !! "time_spent" = Some (VInt 0) /\
        meta !! "color_profile" = Some VNone /\
        meta !! "procreate_version" = Some VNone /\
        meta !! "created_at" = Some t /\
        meta !! "updated_at" = Some t) /\
  (forall data zf objects d meta,
      resolve_root readPlistFromString data = Ok (objects, VDict d) ->
      fst (parse data zf) = Ok meta ->
      (forall k, k ∈ ["dpi"; "orientation"; "layer_count"; "time_spent"; "color_profile";
                      "procreate_version"; "created_at"; "updated_at"] ->
                 is_Some (meta !! k)) /\
      (dict_get d "canvasSize" VNone = VNone -> dict_get d "size" VNone = VNone ->
       meta !! "canvas_width" = Some (VInt 0) /\ meta !! "canvas_height" = Some (VInt 0)) /\
      (dict_get d "dpi" VNone = VNone ->
       dict_get d "SilicaDocumentArchiveDPIKey" VNone = VNone ->
       meta !! "dpi" = Some (VInt 0)) /\
      (dict_get d "orientation" VNone = VNone ->
       meta !! "orientation" = Some (VStr "unknown")) /\
      (dict_get d "layerCount" VNone = VNone -> dict_get d "layers" VNone = VNone ->
       meta !! "layer_count" = Some (VInt 0)) /\
      (dict_get d "timeSpentDrawing" VNone = VNone ->
       dict_get d "SilicaDocumentTrackedTimeKey" VNone = VNone ->
       meta !! "time_spent" = Some (VInt 0)) /\
      (dict_get d "colorProfile" VNone = VNone ->
       meta !! "color_profile" = Some VNone) /\
      (dict_get d "appVersion" VNone = VNone -> dict_get d "version" VNone = VNone ->
       meta !! "procreate_version" = Some VNone)).
Proof.
  split.
  - intros data zf objects d t Hroot Hmiss Ht.
    assert (Hk : forall k, bool_decide (k ∈ consulted_keys) = true ->
                           dict_get d k VNone = VNone).
    { intros k Hin. apply Hmiss. now apply bool_decide_eq_true in Hin. }
    set (m7 := scalar_fields (<["canvas_height" := VInt 0]> (<["canvas_width" := VInt 0]> ∅))
                 (VInt 0) (VStr "unknown") (VInt 0) (VInt 0) VNone VNone).
    set (m8 := <["updated_at" := VNone]> (<["created_at" := VNone]> m7)).
    set (meta := if is_none t then m8
                 else <["updated_at" := t]> (<["created_at" := t]> m8)).
    assert (Hc8 : m8 !! "created_at" = Some VNone) by reflexivity.
    assert (Hu8 : m8 !! "updated_at" = Some VNone) by reflexivity.
    exists meta. split.
    + unfold parse_document_archive. rewrite Hroot.
      eapply (extract_fields_run _ _ _ _ _ _ _ _ _ _ m8 meta).
      * apply canvas_block_missing; apply Hk; reflexivity.
      * apply dpi_value_missing; apply Hk; reflexivity.
      * apply orientation_value_missing; apply Hk; reflexivity.
      * apply layer_count_value_missing; apply Hk; reflexivity.
      * apply time_spent_value_missing; apply Hk; reflexivity.
      * apply color_profile_value_missing; apply Hk; reflexivity.
      * apply version_value_missing; apply Hk; reflexivity.
      * unfold dates_block, bind, lift, assign.
        rewrite created_value_missing, modified_value_missing by (apply Hk; reflexivity).
        reflexivity.
      * now apply zip_fallback_fills.
      * subst meta.
        destruct (container_timestamp_shape timestamp _ _ Ht) as [->|[ts ->]]; simpl.
        -- now apply clamp_block_null.
        -- rewrite (clamp_block_ints _ ts ts) by reflexivity.
           now rewrite Z.ltb_irrefl.
    + subst meta.
      destruct (container_timestamp_shape timestamp _ _ Ht) as [->|[ts ->]]; simpl;
        repeat split; reflexivity.
  - intros data zf objects d meta Hroot Hparse.
    destruct (parse_ok_fields _ _ _ _ _ Hroot Hparse)
      as (m1 & dpi & ori & lc & ts & cp & ver & m8 & m9 & Hcanvas & Hdpi & Hori & Hlc & Hts
          & Hcp & Hver & Hdates & Hzip & Hclamp & Hframe).
    split; [|split; [|split; [|split; [|split; [|split; [|split]]]]]].
    + intros k Hin.
      assert (Hdate : forall j, j = "created_at" \/ j = "updated_at" -> is_Some (meta !! j)).
      { intros j Hj.
        apply dates_block_ok in Hdates as (? & ? & c & u & _ & _ & _ & _ & ->).
        assert (H8 : is_Some ((<["updated_at" := u]> (<["created_at" := c]>
                       (scalar_fields m1 dpi ori lc ts cp ver))) !! j)).
        { destruct Hj as [->| ->];
            [rewrite lookup_insert_ne, lookup_insert_eq by done|rewrite lookup_insert_eq];
            eauto. }
        apply (zip_fallback_keeps _ _ _ _ _ Hzip) in H8.
        apply clamp_block_cases in Hclamp as [->|(? & ? & _ & _ & _ & _ & ->)];
          [assumption|]. rewrite lookup_insert_is_Some'. now right. }
      repeat (apply elem_of_cons in Hin as [->|Hin]);
        [..|now apply elem_of_nil in Hin];
        try (apply Hdate; tauto);
        rewrite Hframe by done; lookup_fields.
    + intros H1 H2. rewrite (canvas_block_missing _ _ _ H1 H2) in Hcanvas.
      inversion Hcanvas; subst m1. rewrite !Hframe by done. split; lookup_fields.
    + intros H1 H2. rewrite (dpi_value_missing _ H1 H2) in Hdpi.
      inversion Hdpi; subst dpi. rewrite Hframe by done. lookup_fields.
    + intros H1. rewrite (orientation_value_missing _ H1) in Hori.
      inversion Hori; subst ori. rewrite Hframe by done. lookup_fields.
    + intros H1 H2. rewrite (layer_count_value_missing _ _ H1 H2) in Hlc.
      inversion Hlc; subst lc. rewrite Hframe by done. lookup_fields.
    + intros H1 H2. rewrite (time_spent_value_missing _ H1 H2) in Hts.
      inversion Hts; subst ts. rewrite Hframe by done. lookup_fields.
    + intros H1. rewrite (color_profile_value_missing _ _ H1) in Hcp.
      inversion Hcp; subst cp. rewrite Hframe by done. lookup_fields.
    + intros H1 H2. rewrite (version_value_missing _ H1 H2) in Hver.
      inversion Hver; subst ver. rewrite Hframe by done. lookup_fields.
Qed.

End Properties.

(** ** Properties of [compute_sha256] *)

Lemma file_read_all n rest :
  n <> 0 -> (fst (file_read n rest) ++ snd (file_read n rest))%list = rest.
Proof.
  intros Hn. unfold file_read. destruct (n <? 0); simpl.
  - apply app_nil_r.
  - apply firstn_skipn.
Qed.

Lemma file_read_empty n rest r :
  n <> 0 -> file_read n rest = ([], r) -> rest = [].
Proof.
  intros Hn. unfold file_read. destruct (n <? 0) eqn:Hneg.
  - now intros [= -> _].
  - intros [= Hfirst _]. destruct rest as [|b rest]; [reflexivity|].
    destruct (Z.to_nat n) eqn:Hnat; [lia|discriminate].
Qed.

(** Whatever the chunk size, the hash object has been fed the bytes of the
    file, in order, when the loop ends. *)
Lemma hash_chunks_feeds_all n sha rest :
  n <> 0 -> hash_chunks n sha rest = (sha ++ rest)%list.
Proof.
  intros Hn. funelim (hash_chunks n sha rest).
  - rewrite (file_read_empty _ _ _ Hn e). now rewrite app_nil_r.
  - rewrite H by assumption. rewrite <- app_assoc. f_equal.
    pose proof (file_read_all chunk_size rest Hn) as Hall.
    rewrite Heq in Hall. exact Hall.
Qed.

Lemma round_length st kw : length st = 8%nat -> length (Sha256.round st kw) = 8%nat.
Proof.
  intros H. do 9 (destruct st as [|? st]; try discriminate). reflexivity.
Qed.

Lemma rounds_length kws st :
  length st = 8%nat -> length (fold_left Sha256.round kws st) = 8%nat.
Proof.
  revert st. induction kws as [|kw kws IH]; intros st H; simpl; [assumption|].
  apply IH. now apply round_length.
Qed.

Lemma compress_length h block :
  length h = 8%nat -> length (Sha256.compress h block) = 8%nat.
Proof.
  intros H. unfold Sha256.compress.
  rewrite length_map, length_combine, rounds_length by assumption. lia.
Qed.

Lemma digest_words_length msg : length (Sha256.digest_words msg) = 8%nat.
Proof.
  unfold Sha256.digest_words.
  generalize (Sha256.blocks (length (Sha256.words (Sha256.pad msg)))
                (Sha256.words (Sha256.pad msg))).
  intros bs. assert (H0 : length Sha256.H0 = 8%nat) by reflexivity.
  revert H0. generalize Sha256.H0.
  induction bs as [|b bs IH]; intros h Hh; simpl; [assumption|].
  apply IH. now apply compress_length.
Qed.

Lemma hex_digit_lower x : is_lower_hex (Sha256.hex_digit x) = true.
Proof.
  unfold Sha256.hex_digit.
  assert (Hlt : (Z.to_nat (x mod 16) < 16)%nat)
    by (pose proof (Z.mod_pos_bound x 16); lia).
  revert Hlt. generalize (Z.to_nat (x mod 16)). intros n Hlt.
  do 16 (destruct n as [|n]; [reflexivity|]). lia.
Qed.

Lemma hex_words_shape ws :
  length (flat_map Sha256.hex_word ws) = (8 * length ws)%nat /\
  Forall (fun c => is_lower_hex c = true) (flat_map Sha256.hex_word ws).
Proof.
  induction ws as [|w ws [IHlen IHhex]]; [split; [reflexivity|constructor]|].
  change (flat_map Sha256.hex_word (w :: ws))
    with (Sha256.hex_word w ++ flat_map Sha256.hex_word ws)%list.
  split.
  - rewrite length_app, IHlen. unfold Sha256.hex_word. simpl. lia.
  - apply Forall_app. split; [|assumption].
    unfold Sha256.hex_word. simpl. repeat constructor; apply hex_digit_lower.
Qed.

Lemma string_of_list_ascii_length l :
  String.length (string_of_list_ascii l) = length l.
Proof. induction l as [|c l IH]; simpl; [reflexivity|now rewrite IH]. Qed.

(** C9.  For every file and every non-zero chunk size, in particular the
    fixed default of one mebibyte, [compute_sha256] returns the SHA-256 hex
    digest of exactly the file's bytes; that digest has 64 characters, all
    lowercase hexadecimal digits; and two calls on the same bytes, whatever
    the path, the world and the chunk sizes, return the same digest. *)
Theorem compute_sha256_digest_of_file_bytes :
  forall w path bytes chunk_size,
    files w !! path = Some bytes ->
    chunk_size <> 0 ->
    compute_sha256 w path chunk_size = Ok (Sha256.hexdigest bytes) /\
    compute_sha256 w path default_chunk_size = Ok (Sha256.hexdigest bytes) /\
    String.length (Sha256.hexdigest bytes) = 64%nat /\
    Forall (fun c => is_lower_hex c = true)
           (list_ascii_of_string (Sha256.hexdigest bytes)) /\
    (forall w' path' chunk_size',
        files w' !! path' = Some bytes -> chunk_size' <> 0 ->
        compute_sha256 w' path' chunk_size' = compute_sha256 w path chunk_size).
Proof.
  intros w path bytes chunk_size Hfile Hchunk.
  assert (Hrun : forall w0 p0 n, files w0 !! p0 = Some bytes -> n <> 0 ->
                   compute_sha256 w0 p0 n = Ok (Sha256.hexdigest bytes)).
  { intros w0 p0 n Hf Hn. unfold compute_sha256. rewrite Hf.
    now rewrite hash_chunks_feeds_all. }
  destruct (hex_words_shape (Sha256.digest_words bytes)) as [Hlen Hhex].
  split; [now apply Hrun|]. split; [now apply Hrun|]. split; [|split].
  - unfold Sha256.hexdigest. rewrite string_of_list_ascii_length, Hlen.
    now rewrite digest_words_length.
  - unfold Sha256.hexdigest. now rewrite list_ascii_of_string_of_list_ascii.
  - intros w' path' chunk_size' Hf' Hn'. now rewrite !Hrun.
Qed.

(** ** Properties of [extract_thumbnail] and [inspect_procreate] *)

Section Thumbnail.

Variable readPlistFromString : list byte -> result value.
Variable timestamp : Z * Z * Z * Z * Z * Z -> Z.
Variable open_zip : list byte -> result ZipFile.
Variable image_verify : list byte -> bool.
Variable TEMP_DIR : string.

Local Abbreviation thumbnail := (extract_thumbnail image_verify TEMP_DIR).
Local Abbreviation inspect_file :=
  (inspect_procreate readPlistFromString timestamp open_zip image_verify TEMP_DIR).
Local Abbreviation out_path := (thumbnail_out_path TEMP_DIR).

Lemma extract_thumbnail_present zf path w info :
  zip_find "QuickLook/Thumbnail.png" zf = Some info ->
  thumbnail zf path w
  = (if image_verify (content info) then Ok (VStr (out_path w path)) else Raise ImageError,
     write_file (out_path w path) (content info) w).
Proof.
  intros Hfind. unfold extract_thumbnail, zip_read, getinfo. rewrite Hfind. simpl.
  rewrite lookup_insert_eq. now destruct (image_verify (content info)).
Qed.

(** C8.  Without a thumbnail entry [extract_thumbnail] returns null and
    leaves the world as it was.  With one, the entry's bytes are written to
    [TEMP_DIR/<stem>_<time>.png] and verified there: the path is returned
    when the image is valid, and the verifier's exception is raised when it
    is not.  In that case [inspect_procreate] ends in an exception with
    nothing printed, and the exception is the verifier's whenever the steps
    before the thumbnail succeeded. *)
Theorem thumbnail_absent_null_invalid_aborts :
  (forall zf path w,
      zip_find "QuickLook/Thumbnail.png" zf = None ->
      thumbnail zf path w = (Ok VNone, w)) /\
  (forall zf path w info,
      zip_find "QuickLook/Thumbnail.png" zf = Some info ->
      let w' := snd (thumbnail zf path w) in
      files w' !! out_path w path = Some (content info) /\
      stdout w' = stdout w /\
      (image_verify (content info) = true ->
       fst (thumbnail zf path w) = Ok (VStr (out_path w path))) /\
      (image_verify (content info) = false ->
       fst (thumbnail zf path w) = Raise ImageError)) /\
  (forall path w bytes zf info,
      files w !! path = Some bytes ->
      open_zip bytes = Ok zf ->
      zip_find "QuickLook/Thumbnail.png" zf = Some info ->
      image_verify (content info) = false ->
      (exists e, fst (inspect_file path w) = Raise e) /\
      stdout (snd (inspect_file path w)) = stdout w) /\
  (forall path w bytes zf info archive_data meta,
      files w !! path = Some bytes ->
      lower_string (path_suffix path) = ".procreate" ->
      open_zip bytes = Ok zf ->
      zip_read zf "Document.archive" = Ok archive_data ->
      fst (parse_document_archive readPlistFromString timestamp archive_data (Some zf))
        = Ok meta ->
      zip_find "QuickLook/Thumbnail.png" zf = Some info ->
      image_verify (content info) = false ->
      fst (inspect_file path w) = Raise ImageError /\
      stdout (snd (inspect_file path w)) = stdout w).
Proof.
  split; [|split; [|split]].
  - intros zf path w Hnone. unfold extract_thumbnail, zip_read, getinfo.
    now rewrite Hnone.
  - intros zf path w info Hfind. rewrite (extract_thumbnail_present _ _ _ _ Hfind).
    simpl. rewrite lookup_insert_eq. repeat split; intros ->; reflexivity.
  - intros path w bytes zf info Hfile Hzip Hfind Hbad.
    unfold inspect_procreate. rewrite Hfile.
    destruct (negb _); [simpl; eauto|]. rewrite Hzip.
    destruct (zip_read zf "Document.archive") as [archive_data|]; [|simpl; eauto].
    destruct (fst (parse_document_archive _ _ archive_data (Some zf))) as [meta|];
      [|simpl; eauto].
    rewrite (extract_thumbnail_present _ _ _ _ Hfind), Hbad. simpl. eauto.
  - intros path w bytes zf info archive_data meta Hfile Hsuffix Hzip Harchive Hparse
           Hfind Hbad.
    unfold inspect_procreate. rewrite Hfile, Hsuffix. simpl.
    rewrite Hzip, Harchive, Hparse.
    rewrite (extract_thumbnail_present _ _ _ _ Hfind), Hbad. simpl. auto.
Qed.

End Thumbnail.

(** ** The properties on concrete archives *)

(** C1 (as stated) fails: a root record whose [dpi] is the string "abc"
    makes the call raise [ValueError] instead of defaulting the field. *)
Lemma unparseable_dpi_counterexample :
  resolve_root (decodes_to (keyed_archive (VDict [("dpi", VStr "abc")]))) []
    = Ok (VList [VStr "$null"; VDict [("dpi", VStr "abc")]], VDict [("dpi", VStr "abc")]) /\
  fst (parse_root (VDict [("dpi", VStr "abc")]) None) = Raise ValueError.
Proof. split; vm_compute; reflexivity. Qed.

Lemma missing_keys_take_defaults_witness :
  (exists meta,
      parse_root (VDict [("name", VStr "Sketch")]) (Some container_without_thumbnail)
        = (Ok meta, meta) /\
      meta !! "dpi" = Some (VInt 0) /\
      meta !! "orientation" = Some (VStr "unknown") /\
      meta !! "created_at" = Some (VInt 1704067200)) /\
  (let meta := snd (parse_root (VDict [("dpi", VInt 300)]) None) in
   is_Some (meta !! "color_profile") /\
   meta !! "canvas_width" = Some (VInt 0) /\
   meta !! "layer_count" = Some (VInt 0)).
Proof.
  destruct (missing_keys_take_defaults (decodes_to (keyed_archive (VDict [("name", VStr "Sketch")])))
              utc_timestamp) as [Hall _].
  destruct (missing_keys_take_defaults (decodes_to (keyed_archive (VDict [("dpi", VInt 300)])))
              utc_timestamp) as [_ Heach].
  split.
  - destruct (Hall [] (Some container_without_thumbnail)
                (VList [VStr "$null"; VDict [("name", VStr "Sketch")]])
                [("name", VStr "Sketch")] (VInt 1704067200))
      as (meta & Hrun & _ & _ & Hdpi & Hori & _ & _ & _ & _ & Hcreated & _).
    + vm_compute; reflexivity.
    + intros k Hk. unfold consulted_keys in Hk.
      repeat (apply elem_of_cons in Hk as [->|Hk]; [vm_compute; reflexivity|]).
      now apply elem_of_nil in Hk.
    + vm_compute; reflexivity.
    + exists meta. auto.
  - intros meta.
    assert (Hrun : fst (parse_root (VDict [("dpi", VInt 300)]) None) = Ok meta)
      by (vm_cast_no_check (@eq_refl _ (@Ok Meta meta))).
    clearbody meta.
    assert (Hroot : resolve_root (decodes_to (keyed_archive (VDict [("dpi", VInt 300)]))) []
                    = Ok (VList [VStr "$null"; VDict [("dpi", VInt 300)]],
                          VDict [("dpi", VInt 300)]))
      by (vm_compute; reflexivity).
    destruct (Heach [] None _ _ meta Hroot Hrun) as (Hpresent & Hcanvas & _ & _ & Hlayers & _).
    split; [apply Hpresent; compute_done|].
    split; [apply Hcanvas; reflexivity|apply Hlayers; reflexivity].
Defined.

Lemma parse_fails_before_any_field_witness :
  parse_document_archive (decodes_to archive_without_root_uid) utc_timestamp [] None
    = (Raise RuntimeError, ∅) /\
  parse_document_archive (decodes_to archive_dangling_root) utc_timestamp [] None
    = (Raise IndexError, ∅) /\
  parse_root (VStr "$null") None = (Raise AttributeError, ∅).
Proof.
  split; [|split].
  - destruct (parse_fails_before_any_field (decodes_to archive_without_root_uid)
                utc_timestamp [] None archive_without_root_uid
                (VList [VStr "$null"; VDict []]) (VDict [("root", VStr "root")])
                (VStr "root") eq_refl eq_refl eq_refl eq_refl) as (Hnone & _ & _).
    exact (Hnone eq_refl).
  - destruct (parse_fails_before_any_field (decodes_to archive_dangling_root)
                utc_timestamp [] None archive_dangling_root
                (VList [VStr "$null"]) (VDict [("root", VUid 7)])
                (VUid 7) eq_refl eq_refl eq_refl eq_refl) as (_ & Hlookup & _).
    apply Hlookup; [discriminate|reflexivity].
  - destruct (parse_fails_before_any_field (decodes_to (keyed_archive (VStr "$null")))
                utc_timestamp [] None (keyed_archive (VStr "$null"))
                (VList [VStr "$null"; VStr "$null"]) (VDict [("root", VUid 1)])
                (VUid 1) eq_refl eq_refl eq_refl eq_refl) as (_ & _ & Hshape).
    apply (Hshape (VStr "$null")); [discriminate|reflexivity|discriminate].
Defined.

(** C3 fails on the code: a canvas string that does not split into exactly
    two parts goes through the [try] without an exception, so neither branch
    that stores zeros runs, and the returned dictionary has no
    [canvas_width] and no [canvas_height]. *)
Theorem canvas_string_of_three_parts_sets_no_field :
  let meta := snd (parse_root (VDict [("size", VStr "{1024, 768, 72}")]) None) in
  fst (parse_root (VDict [("size", VStr "{1024, 768, 72}")]) None) = Ok meta /\
  meta !! "canvas_width" = None /\
  meta !! "canvas_height" = None /\
  meta !! "dpi" = Some (VInt 0).
Proof.
  intros meta. split; [vm_cast_no_check (@eq_refl _ (@Ok Meta meta))|].
  repeat split; vm_compute; reflexivity.
Qed.

(** The two shapes of C3 that the code does read: a record and a
    brace-delimited pair give the same two integers, fractions are cut
    toward zero, and an unparseable part gives zeros. *)
Example canvas_record_and_string_agree :
  let of_root r := let meta := snd (parse_root r None) in
                   (meta !! "canvas_width", meta !! "canvas_height") in
  of_root (VDict [("size", VDict [("width", VInt 100); ("height", VInt 200)])])
    = (Some (VInt 100), Some (VInt 200)) /\
  of_root (VDict [("size", VStr "{100, 200}")]) = (Some (VInt 100), Some (VInt 200)) /\
  of_root (VDict [("size", VStr "{100.9, -200.9}")]) = (Some (VInt 100), Some (VInt (-200))) /\
  of_root (VDict [("size", VStr "{100, wide}")]) = (Some (VInt 0), Some (VInt 0)) /\
  of_root (VDict [("size", VInt 7)]) = (Some (VInt 0), Some (VInt 0)).
Proof. repeat split; vm_compute; reflexivity. Qed.

(** C5 (as stated) fails: with [dpi] present and 0, the legacy key is
    consulted and its value is the one used. *)
Lemma zero_dpi_falls_through_counterexample :
  let root := VDict [("dpi", VInt 0); ("SilicaDocumentArchiveDPIKey", VInt 300)] in
  let meta := snd (parse_root root None) in
  fst (parse_root root None) = Ok meta /\
  meta !! "dpi" = Some (VInt 300) /\
  meta !! "dpi" <> Some (VInt 0).
Proof.
  intros root meta. split; [vm_cast_no_check (@eq_refl _ (@Ok Meta meta))|].
  split; [vm_compute; reflexivity|]. vm_compute. discriminate.
Qed.

Lemma primary_key_wins_when_true_witness :
  let d := [("dpi", VInt 300); ("SilicaDocumentArchiveDPIKey", VInt 72);
            ("timeSpentDrawing", VFloat (float_of_decimal false 15 (-1)));
            ("SilicaDocumentTrackedTimeKey", VInt 9)] in
  let meta := snd (parse_root (VDict d) None) in
  dpi_value (VDict d) = Ok (VInt 300) /\
  time_spent_value (VDict d) = Ok (VInt 1) /\
  (exists z, py_int (VInt 300) = Ok z /\ meta !! "dpi" = Some (VInt z)) /\
  dpi_value (VDict [("dpi", VInt 0); ("SilicaDocumentArchiveDPIKey", VInt 72)])
    = Ok (VInt 72).
Proof.
  intros d meta.
  assert (Hrun : fst (parse_root (VDict d) None) = Ok meta)
      by (vm_cast_no_check (@eq_refl _ (@Ok Meta meta))).
  clearbody meta.
  assert (Hroot : resolve_root (decodes_to (keyed_archive (VDict d))) []
                  = Ok (VList [VStr "$null"; VDict d], VDict d))
    by (vm_compute; reflexivity).
  destruct (primary_key_wins_when_true (decodes_to (keyed_archive (VDict d))) utc_timestamp)
    as (Hdpi & Htime & Hout & Hlegacy & _).
  split; [exact (Hdpi d (VInt 300) eq_refl eq_refl)|].
  split; [exact (Htime d _ eq_refl eq_refl)|].
  split.
  - destruct (Hout [] None _ d meta Hroot Hrun) as [Hd _].
    exact (Hd (VInt 300) eq_refl eq_refl).
  - exact (Hlegacy [("dpi", VInt 0); ("SilicaDocumentArchiveDPIKey", VInt 72)] eq_refl).
Defined.

Lemma created_at_never_after_updated_at_witness :
  (let meta := snd (parse_root late_creation_root None) in
   meta !! "created_at" = Some (VInt 1578307200) /\
   meta !! "updated_at" = Some (VInt 1578307200) /\
   exists x y, VInt 1578307200 = VInt x /\ VInt 1578307200 = VInt y /\ x <= y) /\
  clamp_block (<["updated_at" := VInt 5]> (<["created_at" := VInt 9]> ∅))
    = (Ok tt, <["created_at" := VInt 5]>
                (<["updated_at" := VInt 5]> (<["created_at" := VInt 9]> ∅))).
Proof.
  destruct (created_at_never_after_updated_at
              (decodes_to (keyed_archive late_creation_root)) utc_timestamp)
    as [Hout Hclamp].
  split.
  - intros meta.
    assert (Hrun : fst (parse_root late_creation_root None) = Ok meta)
      by (vm_cast_no_check (@eq_refl _ (@Ok Meta meta))).
    assert (Hc : meta !! "created_at" = Some (VInt 1578307200)) by (vm_compute; reflexivity).
    assert (Hu : meta !! "updated_at" = Some (VInt 1578307200)) by (vm_compute; reflexivity).
    clearbody meta.
    split; [exact Hc|]. split; [exact Hu|].
    apply (Hout [] None meta _ _ Hrun Hc Hu); discriminate.
  - exact (Hclamp (<["updated_at" := VInt 5]> (<["created_at" := VInt 9]> ∅)) 9 5
             eq_refl eq_refl).
Defined.

Lemma container_timestamp_fills_both_dates_witness :
  (let meta := snd (parse_root (VDict []) (Some container_without_thumbnail)) in
   meta !! "created_at" = Some (VInt 1704067200) /\
   meta !! "updated_at" = Some (VInt 1704067200)) /\
  (let meta := snd (parse_root (VDict []) (Some (container_with_thumbnail png_signature))) in
   meta !! "created_at" = Some (VInt 1709987408) /\
   meta !! "updated_at" = Some (VInt 1709987408)).
Proof.
  assert (Hroot : resolve_root (decodes_to (keyed_archive (VDict []))) []
                  = Ok (VList [VStr "$null"; VDict []], VDict []))
    by (vm_compute; reflexivity).
  split; intros meta.
  - assert (Hrun : fst (parse_root (VDict []) (Some container_without_thumbnail)) = Ok meta)
      by (vm_cast_no_check (@eq_refl _ (@Ok Meta meta))).
    clearbody meta.
    apply (container_timestamp_fills_both_dates (decodes_to (keyed_archive (VDict [])))
             utc_timestamp [] container_without_thumbnail _ _
             (entry 2024 1 1 0 0 0 []) meta Hroot eq_refl eq_refl
             (or_intror (conj eq_refl eq_refl)) eq_refl Hrun).
  - assert (Hrun : fst (parse_root (VDict [])
                          (Some (container_with_thumbnail png_signature))) = Ok meta)
      by (vm_cast_no_check (@eq_refl _ (@Ok Meta meta))).
    clearbody meta.
    apply (container_timestamp_fills_both_dates (decodes_to (keyed_archive (VDict [])))
             utc_timestamp [] (container_with_thumbnail png_signature) _ _
             (entry 2024 3 9 12 30 8 png_signature) meta Hroot eq_refl eq_refl
             (or_introl eq_refl) eq_refl Hrun).
Defined.

Lemma compute_sha256_digest_of_file_bytes_witness :
  let w := {| files := {["/art/abc.procreate" := list_byte_of_string "abc"]};
              clock := 0; stdout := [] |} in
  compute_sha256 w "/art/abc.procreate" 2
    = Ok "ba7816bf8f01cfea414140de5dae2223b00361a396177a9cb410ff61f20015ad" /\
  compute_sha256 w "/art/abc.procreate" default_chunk_size
    = Ok "ba7816bf8f01cfea414140de5dae2223b00361a396177a9cb410ff61f20015ad" /\
  String.length (Sha256.hexdigest (list_byte_of_string "abc")) = 64%nat.
Proof.
  intros w.
  destruct (compute_sha256_digest_of_file_bytes w "/art/abc.procreate"
              (list_byte_of_string "abc") 2 eq_refl ltac:(discriminate))
    as (Hrun & Hdefault & Hlen & _ & _).
  split; [rewrite Hrun; vm_compute; reflexivity|].
  split; [rewrite Hdefault; vm_compute; reflexivity|exact Hlen].
Defined.

Lemma thumbnail_absent_null_invalid_aborts_witness :
  extract_thumbnail has_png_signature "/tmp/procreate_meta" container_without_thumbnail
    "/art/Sketch.procreate" sketch_world = (Ok VNone, sketch_world) /\
  fst (extract_thumbnail has_png_signature "/tmp/procreate_meta"
         (container_with_thumbnail png_signature) "/art/Sketch.procreate" sketch_world)
    = Ok (VStr "/tmp/procreate_meta/Sketch_1700000000.png") /\
  fst (inspect_sketch (container_with_thumbnail [x00; x01])) = Raise ImageError /\
  stdout (snd (inspect_sketch (container_with_thumbnail [x00; x01]))) = [].
Proof.
  destruct (thumbnail_absent_null_invalid_aborts
              (decodes_to (keyed_archive (VDict []))) utc_timestamp
              (fun _ => Ok (container_with_thumbnail [x00; x01]))
              has_png_signature "/tmp/procreate_meta")
    as (Habsent & Hpresent & _ & Habort).
  split; [exact (Habsent container_without_thumbnail "/art/Sketch.procreate" sketch_world
                   eq_refl)|].
  split.
  - destruct (Hpresent (container_with_thumbnail png_signature) "/art/Sketch.procreate"
                sketch_world (entry 2024 3 9 12 30 8 png_signature) eq_refl)
      as (_ & _ & Hvalid & _).
    rewrite (Hvalid eq_refl). vm_compute; reflexivity.
  - set (meta := snd (parse_root (VDict []) (Some (container_with_thumbnail [x00; x01])))).
    assert (Hrun : fst (parse_document_archive (decodes_to (keyed_archive (VDict [])))
                          utc_timestamp [] (Some (container_with_thumbnail [x00; x01])))
                   = Ok meta)
      by (vm_cast_no_check (@eq_refl _ (@Ok Meta meta))).
    clearbody meta.
    assert (Hfile : files sketch_world !! "/art/Sketch.procreate" = Some [x50; x4b])
      by (vm_compute; reflexivity).
    assert (Hsuffix : lower_string (path_suffix "/art/Sketch.procreate") = ".procreate")
      by (vm_compute; reflexivity).
    exact (Habort "/art/Sketch.procreate" sketch_world [x50; x4b]
             (container_with_thumbnail [x00; x01]) (entry 2024 3 9 12 30 8 [x00; x01])
             [] meta Hfile Hsuffix eq_refl eq_refl Hrun eq_refl eq_refl).
Defined.

(** ** Further properties of [resolve] and [apple_time_to_unix] *)

Lemma seq_index_in_range {A} (l : list A) (i : nat) x :
  nth_error l i = Some x -> seq_index l (Z.of_nat i) = Ok x.
Proof.
  intros Hnth. unfold seq_index.
  assert (Hlt : (i < length l)%nat) by (apply nth_error_Some; congruence).
  destruct (Z.of_nat i <? 0) eqn:Hneg; [lia|].
  replace ((0 <=? Z.of_nat i) && (Z.of_nat i <? Z.of_nat (length l))) with true
    by (symmetry; apply andb_true_iff; split; lia).
  now rewrite Nat2Z.id, Hnth.
Qed.

Lemma seq_index_past_end {A} (l : list A) (i : Z) :
  Z.of_nat (length l) <= i -> seq_index l i = @Raise A IndexError.
Proof.
  intros Hge. unfold seq_index.
  destruct (i <? 0) eqn:Hneg; [lia|].
  replace ((0 <=? i) && (i <? Z.of_nat (length l))) with false; [reflexivity|].
  symmetry. apply andb_false_iff. right. lia.
Qed.

(** X1.  [resolve] follows one reference and no more: a value that carries no
    UID comes back unchanged; a [Uid] inside the object table gives the
    object at that index, even when that object is itself a reference; a
    [Uid] at or past the end of the table raises [IndexError]; and a
    wrapper record with a negative index counts from the end of the table. *)
Theorem resolve_follows_one_reference :
  (forall objects v, cfuid v = VNone -> resolve objects v = Ok v) /\
  (forall l (n : nat) x,
      nth_error l n = Some x -> resolve (VList l) (VUid (Z.of_nat n)) = Ok x) /\
  (forall l n,
      Z.of_nat (length l) <= n -> resolve (VList l) (VUid n) = Raise IndexError) /\
  (forall l x,
      resolve (VList (l ++ [x])) (VDict [("CF$UID", VInt (-1))]) = Ok x).
Proof.
  split; [|split; [|split]].
  - intros objects v Hnone. unfold resolve. now rewrite Hnone.
  - intros l n x Hnth. unfold resolve. simpl. now apply seq_index_in_range.
  - intros l n Hge. unfold resolve. simpl. now apply seq_index_past_end.
  - intros l x. unfold resolve. simpl. unfold seq_index. simpl.
    rewrite length_app. simpl.
    rewrite (proj2 (Z.leb_le _ _)), (proj2 (Z.ltb_lt _ _)) by lia. simpl.
    replace (Z.to_nat (-1 + Z.of_nat (length l + 1))) with (length l) by lia.
    rewrite nth_error_app2 by lia. now rewrite Nat.sub_diag.
Qed.

Lemma resolve_follows_one_reference_witness :
  resolve (VList [VStr "$null"; VUid 2; VStr "sRGB"]) (VStr "inline") = Ok (VStr "inline") /\
  resolve (VList [VStr "$null"; VUid 2; VStr "sRGB"]) (VUid 1) = Ok (VUid 2) /\
  resolve (VList [VStr "$null"; VUid 2; VStr "sRGB"]) (VUid 3) = Raise IndexError.
Proof.
  destruct resolve_follows_one_reference as (Hplain & Hin & Hout & _).
  split; [apply Hplain; reflexivity|].
  split; [apply (Hin _ 1%nat); reflexivity|].
  apply Hout. simpl. lia.
Defined.

Lemma int_or_zero_int x v : int_or_zero x = Ok v -> exists z, v = VInt z.
Proof.
  unfold int_or_zero. destruct (truthy x).
  - destruct (py_int x) as [z|]; [|discriminate]. intros [= <-]. eauto.
  - intros [= <-]. eauto.
Qed.

Lemma apple_time_to_unix_shape val v :
  apple_time_to_unix val = Ok v -> (val = VNone /\ v = VNone) \/ (val <> VNone /\ exists z, v = VInt z).
Proof.
  unfold apple_time_to_unix. destruct (is_none val) eqn:Hn.
  - destruct val; try discriminate. intros [= <-]. now left.
  - destruct (py_add_int val apple_epoch_offset) as [s|]; [|discriminate]. simpl.
    destruct (py_int s) as [z|]; [|discriminate]. intros [= <-]. right.
    split; [intros ->; discriminate|eauto].
Qed.

(** X2.  [apple_time_to_unix] returns null only for null and an integer for
    every other value it accepts; it accepts numbers only: a string, a bytes
    object, a plist date (a [datetime]), a list and a record make
    [val + 978307200] raise [TypeError]; True counts as 1. *)
Theorem apple_time_to_unix_accepts_numbers_only :
  (forall val v, apple_time_to_unix val = Ok v ->
                 (val = VNone /\ v = VNone) \/ (val <> VNone /\ exists z, v = VInt z)) /\
  (forall val,
      match val with
      | VStr _ | VData _ | VDate _ | VList _ | VDict _ => True
      | _ => False
      end -> apple_time_to_unix val = Raise TypeError) /\
  (forall b, apple_time_to_unix (VBool b) = Ok (VInt (Z.b2z b + 978307200))).
Proof.
  split; [exact apple_time_to_unix_shape|]. split.
  - intros val Hkind. destruct val; try contradiction; reflexivity.
  - intros b. reflexivity.
Qed.

Lemma apple_time_to_unix_accepts_numbers_only_witness :
  apple_time_to_unix (VDate (float_of_Z 700000000)) = Raise TypeError /\
  apple_time_to_unix (VStr "2024-01-01") = Raise TypeError /\
  ((VInt 5 = VNone /\ VInt 978307205 = VNone) \/
   (VInt 5 <> VNone /\ exists z, VInt 978307205 = VInt z)).
Proof.
  destruct apple_time_to_unix_accepts_numbers_only as (Hshape & Htype & _).
  split; [exact (Htype (VDate (float_of_Z 700000000)) I)|].
  split; [exact (Htype (VStr "2024-01-01") I)|].
  exact (Hshape (VInt 5) (VInt 978307205) eq_refl).
Defined.

(** ** Further properties of [parse_document_archive] *)

Section MoreProperties.

Variable readPlistFromString : list byte -> result value.
Variable timestamp : Z * Z * Z * Z * Z * Z -> Z.

Local Abbreviation parse := (parse_document_archive readPlistFromString timestamp).

(** Only a record has [get]: a call that returns had a record as root. *)
Lemma parse_ok_root_is_record data zf objects root meta :
  resolve_root readPlistFromString data = Ok (objects, root) ->
  fst (parse data zf) = Ok meta ->
  exists d, root = VDict d.
Proof.
  intros Hroot Hparse.
  destruct (parse_ok_fields _ _ _ _ _ _ _ Hroot Hparse)
    as (m1 & dpi & ori & lc & ts & cp & ver & m8 & m9 & _ & Hdpi & _).
  destruct root; try discriminate. eauto.
Qed.

(** X3.  The orientation stored in every output is one of three words, chosen by
    comparing the root's [orientation] value with 1 and 2 (so True and 1.0
    count as 1, and a missing or unknown code gives "unknown"); the value
    is hashable in every call that returns. *)
Theorem orientation_is_one_of_three_words :
  forall data zf objects d meta,
    resolve_root readPlistFromString data = Ok (objects, VDict d) ->
    fst (parse data zf) = Ok meta ->
    let o := dict_get d "orientation" VNone in
    hashable o = true /\
    meta !! "orientation"
    = Some (VStr (if eq_int o 1 then "portrait"
                  else if eq_int o 2 then "landscape" else "unknown")) /\
    (meta !! "orientation" = Some (VStr "portrait") \/
     meta !! "orientation" = Some (VStr "landscape") \/
     meta !! "orientation" = Some (VStr "unknown")).
Proof.
  intros data zf objects d meta Hroot Hparse o.
  destruct (parse_ok_fields _ _ _ _ _ _ _ Hroot Hparse)
    as (m1 & dpi & ori & lc & ts & cp & ver & m8 & m9 & _ & _ & Hori & _ & _ & _ & _
        & _ & _ & _ & Hframe).
  unfold orientation_value in Hori. simpl in Hori. fold o in Hori.
  destruct (hashable o) eqn:Hhash; [|discriminate].
  inversion Hori; subst ori. clear Hori.
  assert (Hlook : meta !! "orientation"
                  = Some (VStr (if eq_int o 1 then "portrait"
                                else if eq_int o 2 then "landscape" else "unknown"))).
  { rewrite Hframe by done. lookup_fields. }
  split; [reflexivity|]. split; [exact Hlook|].
  rewrite Hlook. destruct (eq_int o 1); [now left|].
  destruct (eq_int o 2); [right; now left|right; now right].
Qed.

Lemma dpi_value_int root v : dpi_value root = Ok v -> exists z, v = VInt z.
Proof.
  unfold dpi_value. destruct (get_or root "dpi" _); [|discriminate].
  apply int_or_zero_int.
Qed.

Lemma time_spent_value_int root v : time_spent_value root = Ok v -> exists z, v = VInt z.
Proof.
  unfold time_spent_value. destruct (get_or root "timeSpentDrawing" _); [|discriminate].
  apply int_or_zero_int.
Qed.

Lemma layer_count_value_int objects root v :
  layer_count_value objects root = Ok v -> exists z, v = VInt z.
Proof.
  unfold layer_count_value. destruct (py_get root "layerCount") as [lc|]; [|discriminate].
  simpl. destruct (if is_none lc then count_layers objects root else Ok lc); [|discriminate].
  apply int_or_zero_int.
Qed.

Lemma zip_timestamp_shape z t :
  zip_timestamp timestamp z = Ok t -> t = VNone \/ exists ts, t = VInt ts.
Proof. apply (container_timestamp_shape timestamp (Some z)). Qed.

Lemma zip_fallback_shape zf (m m' : Meta) :
  zip_fallback_block timestamp zf m = (Ok tt, m') ->
  date_shape (m !! "created_at") -> date_shape (m !! "updated_at") ->
  date_shape (m' !! "created_at") /\ date_shape (m' !! "updated_at").
Proof.
  unfold zip_fallback_block. destruct zf as [z|]; [|intros [= <-]; tauto].
  unfold bind at 1. rewrite date_missing_spec.
  intros H Hc Hu. revert H.
  destruct (match m !! "created_at" with
            | Some c => if is_none c then Ok true
                        else match m !! "updated_at" with
                             | Some u => Ok (is_none u)
                             | None => Raise KeyError
                             end
            | None => Raise KeyError
            end) as [[|]|]; try discriminate; [|intros [= <-]; tauto].
  unfold bind, lift, ret, read, assign.
  destruct (zip_timestamp timestamp z) as [ts|] eqn:Hts; [|discriminate].
  destruct (zip_timestamp_shape _ _ Hts) as [->|[t ->]]; simpl; [intros [= <-]; tauto|].
  assert (Hint : date_shape (Some (VInt t))) by (right; eauto).
  destruct (m !! "created_at") as [c|] eqn:Hmc; [|discriminate].
  destruct (is_none c).
  - rewrite lookup_insert_ne by done.
    destruct (m !! "updated_at") as [u|] eqn:Hmu; [|discriminate].
    destruct (is_none u); intros [= <-];
      rewrite ?lookup_insert_eq; rewrite ?lookup_insert_ne by done;
      rewrite ?lookup_insert_eq, ?Hmu; tauto.
  - destruct (m !! "updated_at") as [u|] eqn:Hmu; [|discriminate].
    destruct (is_none u); intros [= <-];
      rewrite ?lookup_insert_eq; rewrite ?lookup_insert_ne by done; rewrite ?Hmc, ?Hmu;
      tauto.
Qed.

(** X4.  In every output [dpi], [layer_count] and [time_spent] are integers, and
    [created_at] and [updated_at] are each null or an integer: no float,
    string or other archive value reaches these fields. *)
Theorem number_fields_are_integers :
  forall data zf meta,
    fst (parse_document_archive readPlistFromString timestamp data zf) = Ok meta ->
    (exists z, meta !! "dpi" = Some (VInt z)) /\
    (exists z, meta !! "layer_count" = Some (VInt z)) /\
    (exists z, meta !! "time_spent" = Some (VInt z)) /\
    (meta !! "created_at" = Some VNone \/ exists z, meta !! "created_at" = Some (VInt z)) /\
    (meta !! "updated_at" = Some VNone \/ exists z, meta !! "updated_at" = Some (VInt z)).
Proof.
  intros data zf meta Hparse.
  destruct (resolve_root readPlistFromString data) as [[objects root]|] eqn:Hroot;
    [|unfold parse_document_archive in Hparse; rewrite Hroot in Hparse; discriminate].
  destruct (parse_ok_fields _ _ _ _ _ _ _ Hroot Hparse)
    as (m1 & dpi & ori & lc & ts & cp & ver & m8 & m9 & _ & Hdpi & _ & Hlc & Hts & _ & _
        & Hdates & Hzip & Hclamp & Hframe).
  apply dpi_value_int in Hdpi as [zd ->].
  apply layer_count_value_int in Hlc as [zl ->].
  apply time_spent_value_int in Hts as [zt ->].
  split; [exists zd; rewrite Hframe by done; lookup_fields|].
  split; [exists zl; rewrite Hframe by done; lookup_fields|].
  split; [exists zt; rewrite Hframe by done; lookup_fields|].
  apply dates_block_ok in Hdates as (created & modified & c & u & _ & _ & Hc & Hu & ->).
  assert (Hc8 : date_shape (Some c)).
  { apply apple_time_to_unix_shape in Hc as [[_ ->]|[_ [z ->]]]; [now left|right; eauto]. }
  assert (Hu8 : date_shape (Some u)).
  { apply apple_time_to_unix_shape in Hu as [[_ ->]|[_ [z ->]]]; [now left|right; eauto]. }
  apply zip_fallback_shape in Hzip as [Hc9 Hu9];
    [|now rewrite lookup_insert_ne, lookup_insert_eq by done|now rewrite lookup_insert_eq].
  apply clamp_block_cases in Hclamp as [->|(x & y & _ & _ & _ & _ & ->)];
    [exact (conj Hc9 Hu9)|].
  rewrite lookup_insert_eq, lookup_insert_ne by done.
  split; [right; eauto|exact Hu9].
Qed.


Lemma canvas_of_string_cases s (m : Meta) res m' :
  canvas_of_string s m = (res, m') ->
  (length (split "," (strip (in_chars "{}") s)) <> 2%nat /\ res = Ok tt /\ m' = m) \/
  (length (split "," (strip (in_chars "{}") s)) = 2%nat /\
   ((exists e, res = Raise e) \/
    (res = Ok tt /\ exists w h,
        m' = <["canvas_height" := VInt h]> (<["canvas_width" := VInt w]> m)))).
Proof.
  unfold canvas_of_string.
  destruct (split "," (strip (in_chars "{}") s)) as [|p0 [|p1 [|p2 ps]]]; simpl;
    try (intros [= <- <-]; left; split; [discriminate|tauto]).
  intros H. right. split; [reflexivity|]. revert H.
  unfold bind, lift, assign.
  destruct (rbind (float_of_str (strip is_space p0)) float_trunc) as [w|e];
    [|intros [= <- _]; left; eauto].
  destruct (rbind (float_of_str (strip is_space p1)) float_trunc) as [h|e];
    intros [= <- <-]; [right; eauto|left; eauto].
Qed.

(** What a canvas block that returned has stored: both sizes as integers,
    or nothing, and nothing only for a string that does not split into two
    parts. *)
Lemma canvas_block_cases objects root (m : Meta) m' :
  canvas_block objects root m = (Ok tt, m') ->
  (exists w h, m' !! "canvas_width" = Some (VInt w) /\
               m' !! "canvas_height" = Some (VInt h)) \/
  (m' = m /\ exists sz s,
      get_or root "canvasSize" ["size"] = Ok sz /\ resolve objects sz = Ok (VStr s) /\
      length (split "," (strip (in_chars "{}") s)) <> 2%nat).
Proof.
  unfold canvas_block. unfold bind at 1, lift at 1.
  destruct (get_or root "canvasSize" ["size"]) as [sz|] eqn:Hsz; [|discriminate].
  unfold bind at 1, lift at 1.
  destruct (resolve objects sz) as [canvas|] eqn:Hcanvas; [|discriminate].
  assert (Hzero : forall m0,
             (assign "canvas_width" (VInt 0);; assign "canvas_height" (VInt 0)) m0
             = (Ok tt, m') ->
             exists w h, m' !! "canvas_width" = Some (VInt w) /\
                         m' !! "canvas_height" = Some (VInt h)).
  { unfold bind, assign. intros m0 [= <-]. exists 0, 0.
    now rewrite lookup_insert_ne, !lookup_insert_eq by done. }
  destruct canvas; try (intros H; left; now apply (Hzero m)).
  - unfold try_except. destruct (canvas_of_string s m) as [r m1] eqn:Hs.
    apply canvas_of_string_cases in Hs
      as [(Hlen & -> & ->)|(Hlen & [[e ->]|(-> & w & h & ->)])].
    + intros [= <-]. right. split; [reflexivity|]. now exists sz, s.
    + intros H. left. now apply (Hzero m1).
    + intros [= <-]. left. exists w, h.
      now rewrite lookup_insert_ne, !lookup_insert_eq by done.
  - unfold bind, lift, assign.
    destruct (py_int (dict_get d "width" (VInt 0))) as [w|]; [|discriminate].
    destruct (py_int (dict_get d "height" (VInt 0))) as [h|]; [|discriminate].
    intros [= <-]. left. exists w, h.
    now rewrite lookup_insert_ne, !lookup_insert_eq by done.
Qed.

(** X5.  In every output [canvas_width] and [canvas_height] are both present,
    as integers, or both absent; they are absent exactly when the canvas
    value resolves to a string that does not split on commas into two
    parts. *)
Theorem canvas_fields_both_or_neither :
  forall data zf objects root meta,
    resolve_root readPlistFromString data = Ok (objects, root) ->
    fst (parse data zf) = Ok meta ->
    ((exists w h, meta !! "canvas_width" = Some (VInt w) /\
                  meta !! "canvas_height" = Some (VInt h)) \/
     (meta !! "canvas_width" = None /\ meta !! "canvas_height" = None)) /\
    (meta !! "canvas_width" = None <->
     exists sz s,
       get_or root "canvasSize" ["size"] = Ok sz /\ resolve objects sz = Ok (VStr s) /\
       length (split "," (strip (in_chars "{}") s)) <> 2%nat).
Proof.
  intros data zf objects root meta Hroot Hparse.
  destruct (parse_ok_fields _ _ _ _ _ _ _ Hroot Hparse)
    as (m1 & dpi & ori & lc & ts & cp & ver & m8 & m9 & Hcanvas & _ & _ & _ & _ & _ & _
        & _ & _ & _ & Hframe).
  assert (Hw : meta !! "canvas_width" = m1 !! "canvas_width")
    by (rewrite Hframe by done; unfold scalar_fields; now rewrite !lookup_insert_ne by done).
  assert (Hh : meta !! "canvas_height" = m1 !! "canvas_height")
    by (rewrite Hframe by done; unfold scalar_fields; now rewrite !lookup_insert_ne by done).
  rewrite Hw, Hh.
  destruct (canvas_block_cases _ _ _ _ Hcanvas)
    as [(w & h & Hcw & Hch)|(-> & sz & s & Hsz & Hres & Hlen)].
  - split; [left; eauto|]. rewrite Hcw. split; [discriminate|].
    intros (sz & s & Hsz & Hres & Hlen). exfalso.
    revert Hcanvas Hcw. unfold canvas_block, bind, lift, try_except. rewrite Hsz, Hres.
    destruct (canvas_of_string s ∅) as [r m2] eqn:Hs.
    apply canvas_of_string_cases in Hs as [(_ & -> & ->)|(Hlen2 & _)]; [|contradiction].
    intros [= <-]. now rewrite lookup_empty.
  - rewrite !lookup_empty. split; [now right|]. split; [|reflexivity].
    intros _. now exists sz, s.
Qed.


(** X6.  The layer count comes from [layerCount] whenever that key holds a value
    other than null, and the [layers] entry is then not consulted; otherwise
    it is the length of the resolved [layers] value's ["NS.objects"] list,
    or of the value itself when it is a list, and 0 when [layers] is missing,
    false, or resolves to anything else. *)
Theorem layer_count_sources :
  forall data zf objects d meta,
    resolve_root readPlistFromString data = Ok (objects, VDict d) ->
    fst (parse data zf) = Ok meta ->
    let lc := dict_get d "layerCount" VNone in
    let ref := dict_get d "layers" VNone in
    (lc <> VNone ->
     exists z, int_or_zero lc = Ok (VInt z) /\ meta !! "layer_count" = Some (VInt z)) /\
    (lc = VNone -> truthy ref = false -> meta !! "layer_count" = Some (VInt 0)) /\
    (lc = VNone -> truthy ref = true ->
     forall layers, resolve objects ref = Ok layers ->
       match layers with
       | VList l => meta !! "layer_count" = Some (VInt (Z.of_nat (length l)))
       | VDict ld =>
           match dict_lookup "NS.objects" ld with
           | Some (VList l) => meta !! "layer_count" = Some (VInt (Z.of_nat (length l)))
           | Some _ => True
           | None => meta !! "layer_count" = Some (VInt 0)
           end
       | _ => meta !! "layer_count" = Some (VInt 0)
       end).
Proof.
  intros data zf objects d meta Hroot Hparse lc ref.
  destruct (parse_ok_fields _ _ _ _ _ _ _ Hroot Hparse)
    as (m1 & dpi & ori & v & ts & cp & ver & m8 & m9 & _ & _ & _ & Hlc & _ & _ & _
        & _ & _ & _ & Hframe).
  assert (Hlook : meta !! "layer_count" = Some v) by (rewrite Hframe by done; lookup_fields).
  rewrite Hlook. clear Hframe Hlook.
  unfold layer_count_value in Hlc. simpl in Hlc. fold lc in Hlc.
  assert (Hzero : forall n : nat, int_or_zero (VInt (Z.of_nat n)) = Ok (VInt (Z.of_nat n))).
  { intros n. unfold int_or_zero. simpl. destruct (Z.of_nat n =? 0) eqn:Hz; simpl;
      [|reflexivity]. apply Z.eqb_eq in Hz. now rewrite Hz. }
  split; [|split].
  - intros Hsome. destruct lc; try congruence; simpl in Hlc;
      destruct (int_or_zero_int _ _ Hlc) as [count ->]; exists count; split; auto.
  - intros Hnone Hfalse. rewrite Hnone in Hlc. simpl in Hlc.
    unfold count_layers in Hlc. simpl in Hlc. fold ref in Hlc. rewrite Hfalse in Hlc.
    simpl in Hlc. unfold int_or_zero in Hlc. simpl in Hlc. congruence.
  - intros Hnone Htrue layers Hres. rewrite Hnone in Hlc. simpl in Hlc.
    unfold count_layers in Hlc. simpl in Hlc. fold ref in Hlc.
    rewrite Htrue, Hres in Hlc. simpl in Hlc.
    destruct layers; simpl in Hlc;
      try (unfold int_or_zero in Hlc; simpl in Hlc; congruence).
    + rewrite Hzero in Hlc. congruence.
    + destruct (dict_lookup "NS.objects" d0) as [objs|]; simpl in Hlc;
        [|unfold int_or_zero in Hlc; simpl in Hlc; congruence].
      destruct objs; try exact I. simpl in Hlc. rewrite Hzero in Hlc. congruence.
Qed.

(** X7.  The colour profile is null when [colorProfile] is missing or false.
    Otherwise it is the resolved value when that is a string; for a record
    it is the string its ICC-name key resolves to when that is a non-empty
    string, else the record's [name] when true, else its [iccName]; and null
    for every other shape. *)
Theorem color_profile_precedence :
  forall data zf objects d meta,
    resolve_root readPlistFromString data = Ok (objects, VDict d) ->
    fst (parse data zf) = Ok meta ->
    let ref := dict_get d "colorProfile" VNone in
    (truthy ref = false -> meta !! "color_profile" = Some VNone) /\
    (truthy ref = true ->
     forall color, resolve objects ref = Ok color ->
       match color with
       | VStr s => meta !! "color_profile" = Some (VStr s)
       | VDict c =>
           let by_name := if truthy (dict_get c "name" VNone) then dict_get c "name" VNone
                          else dict_get c "iccName" VNone in
           let icc := dict_get c "SiColorProfileArchiveICCNameKey" VNone in
           (icc = VNone -> meta !! "color_profile" = Some by_name) /\
           (icc <> VNone -> forall r, resolve objects icc = Ok r ->
              match r with
              | VStr (String a s) => meta !! "color_profile" = Some (VStr (String a s))
              | _ => meta !! "color_profile" = Some by_name
              end)
       | _ => meta !! "color_profile" = Some VNone
       end).
Proof.
  intros data zf objects d meta Hroot Hparse ref.
  destruct (parse_ok_fields _ _ _ _ _ _ _ Hroot Hparse)
    as (m1 & dpi & ori & lc & ts & v & ver & m8 & m9 & _ & _ & _ & _ & _ & Hcp & _
        & _ & _ & _ & Hframe).
  assert (Hlook : meta !! "color_profile" = Some v) by (rewrite Hframe by done; lookup_fields).
  rewrite Hlook. clear Hframe Hlook.
  unfold color_profile_value in Hcp. simpl in Hcp. fold ref in Hcp.
  split.
  - intros Hfalse. rewrite Hfalse in Hcp. congruence.
  - intros Htrue color Hres. rewrite Htrue, Hres in Hcp. simpl in Hcp.
    destruct color; try congruence.
    unfold profile_of_dict in Hcp. simpl in Hcp. split.
    + intros Hicc. rewrite Hicc in Hcp. simpl in Hcp.
      destruct (truthy (dict_get d0 "name" VNone)); congruence.
    + intros Hicc r Hr.
      assert (Hn : is_none (dict_get d0 "SiColorProfileArchiveICCNameKey" VNone) = false)
        by (destruct (dict_get d0 "SiColorProfileArchiveICCNameKey" VNone);
            first [reflexivity|congruence]).
      rewrite Hn, Hr in Hcp. simpl in Hcp.
      destruct r as [| | | | | |[|a s]| | |]; simpl in Hcp;
        try (destruct (truthy (dict_get d0 "name" VNone)); congruence); congruence.
Qed.

(** X8.  The version is passed through unconverted: the value under
    [appVersion] when it is true, else whatever [version] holds, null when
    that is missing. *)
Theorem version_is_passed_through :
  forall data zf objects d meta,
    resolve_root readPlistFromString data = Ok (objects, VDict d) ->
    fst (parse data zf) = Ok meta ->
    meta !! "procreate_version"
    = Some (if truthy (dict_get d "appVersion" VNone) then dict_get d "appVersion" VNone
            else dict_get d "version" VNone).
Proof.
  intros data zf objects d meta Hroot Hparse.
  destruct (parse_ok_fields _ _ _ _ _ _ _ Hroot Hparse)
    as (m1 & dpi & ori & lc & ts & cp & v & m8 & m9 & _ & _ & _ & _ & _ & _ & Hver
        & _ & _ & _ & Hframe).
  rewrite Hframe by done. unfold scalar_fields. rewrite lookup_insert_eq.
  unfold version_value in Hver. simpl in Hver.
  destruct (truthy (dict_get d "appVersion" VNone)); congruence.
Qed.


Lemma bind_ext {A B} (c : M A) (k1 k2 : A -> M B) (m : Meta) :
  (forall a m', c m = (Ok a, m') -> k1 a m' = k2 a m') ->
  bind c k1 m = bind c k2 m.
Proof.
  intros H. unfold bind. destruct (c m) as [[a|e] m']; [now apply H|reflexivity].
Qed.

Lemma bind_run {A B} (c : M A) (k : A -> M B) (m m' : Meta) a :
  c m = (Ok a, m') -> bind c k m = k a m'.
Proof. intros H. unfold bind. now rewrite H. Qed.

(** With both dates stored as integers the fallback does nothing. *)
Lemma zip_fallback_skips zf (m : Meta) x y :
  m !! "created_at" = Some (VInt x) -> m !! "updated_at" = Some (VInt y) ->
  zip_fallback_block timestamp zf m = (Ok tt, m).
Proof.
  intros Hc Hu. unfold zip_fallback_block. destruct zf as [z|]; [|reflexivity].
  unfold bind at 1. now rewrite date_missing_spec, Hc, Hu.
Qed.

(** X9.  When the archive yields both dates the container is not consulted: the
    call gives the same result, or the same exception, with any container
    as with none. *)
Theorem container_ignored_when_archive_has_dates :
  forall data zf objects root cv mv,
    resolve_root readPlistFromString data = Ok (objects, root) ->
    created_value root = Ok cv -> modified_value root = Ok mv ->
    cv <> VNone -> mv <> VNone ->
    parse data zf = parse data None.
Proof.
  intros data zf objects root cv mv Hroot Hcv Hmv Hcn Hmn.
  unfold parse_document_archive. rewrite Hroot. unfold extract_fields.
  do 7 (apply bind_ext; intros [] ? _).
  apply bind_ext. intros [] m8 Hdates.
  apply dates_block_ok in Hdates as (created & modified & c & u & Hc & Hm & Hac & Hau & ->).
  rewrite Hcv in Hc. rewrite Hmv in Hm. inversion Hc; inversion Hm; subst created modified.
  apply apple_time_to_unix_shape in Hac as [[-> _]|[_ [x ->]]]; [congruence|].
  apply apple_time_to_unix_shape in Hau as [[-> _]|[_ [y ->]]]; [congruence|].
  match goal with |- bind _ _ ?m = _ => set (m8 := m) end.
  assert (Hc8 : m8 !! "created_at" = Some (VInt x))
    by (subst m8; now rewrite lookup_insert_ne, lookup_insert_eq by done).
  assert (Hu8 : m8 !! "updated_at" = Some (VInt y))
    by (subst m8; now rewrite lookup_insert_eq).
  rewrite (bind_run _ _ _ _ tt (zip_fallback_skips zf _ x y Hc8 Hu8)).
  reflexivity.
Qed.

(** The fallback with a container timestamp at hand: each date that is
    null is replaced, the other is kept. *)
Lemma zip_fallback_run z (m : Meta) c u ts :
  m !! "created_at" = Some c -> m !! "updated_at" = Some u ->
  is_none c || is_none u = true ->
  zip_timestamp timestamp z = Ok (VInt ts) ->
  zip_fallback_block timestamp (Some z) m
  = (Ok tt, let m1 := if is_none c then <["created_at" := VInt ts]> m else m in
            if is_none u then <["updated_at" := VInt ts]> m1 else m1).
Proof.
  intros Hc Hu Hmissing Hts. unfold zip_fallback_block. unfold bind at 1.
  rewrite date_missing_spec, Hc, Hu.
  assert (Hflag : (if is_none c then Ok true else Ok (is_none u)) = @Ok bool true).
  { destruct (is_none c); [reflexivity|]. simpl in Hmissing. now rewrite Hmissing. }
  rewrite Hflag. unfold bind, lift, ret, read, assign. rewrite Hts. simpl. rewrite Hc.
  destruct (is_none c).
  - rewrite lookup_insert_ne by done. rewrite Hu. now destruct (is_none u).
  - rewrite Hu. now destruct (is_none u).
Qed.

(** X10.  When the archive yields one of the two dates, only the other is taken
    from the container, and the clamp then orders the pair: with a creation
    date [c] and no modification date the output has [updated_at] equal to
    the container timestamp [ts] and [created_at] equal to [min c ts]; with
    a modification date [u] and no creation date it has [updated_at = u] and
    [created_at = min ts u]. *)
Theorem container_fills_the_missing_date :
  forall data z objects root ts meta,
    resolve_root readPlistFromString data = Ok (objects, root) ->
    zip_timestamp timestamp z = Ok (VInt ts) ->
    fst (parse data (Some z)) = Ok meta ->
    (forall cv c,
        created_value root = Ok cv -> apple_time_to_unix cv = Ok (VInt c) ->
        modified_value root = Ok VNone ->
        meta !! "created_at" = Some (VInt (Z.min c ts)) /\
        meta !! "updated_at" = Some (VInt ts)) /\
    (forall mv u,
        created_value root = Ok VNone ->
        modified_value root = Ok mv -> apple_time_to_unix mv = Ok (VInt u) ->
        meta !! "created_at" = Some (VInt (Z.min ts u)) /\
        meta !! "updated_at" = Some (VInt u)).
Proof.
  intros data z objects root ts meta Hroot Hts Hparse.
  destruct (parse_ok_fields _ _ _ _ _ _ _ Hroot Hparse)
    as (m1 & dpi & ori & lc & tsp & cp & ver & m8 & m9 & _ & _ & _ & _ & _ & _ & _
        & Hdates & Hzip & Hclamp & _).
  apply dates_block_ok in Hdates as (created & modified & c0 & u0 & Hc & Hm & Hac & Hau & ->).
  set (m8 := <["updated_at" := u0]> (<["created_at" := c0]> _)) in Hzip.
  assert (Hc8 : m8 !! "created_at" = Some c0)
    by (subst m8; now rewrite lookup_insert_ne, lookup_insert_eq by done).
  assert (Hu8 : m8 !! "updated_at" = Some u0) by (subst m8; now rewrite lookup_insert_eq).
  clearbody m8.
  split.
  - intros cv c Hcv Hacv Hmv.
    rewrite Hcv in Hc. rewrite Hmv in Hm. inversion Hc; inversion Hm; subst created modified.
    rewrite Hacv in Hac. inversion Hac; inversion Hau; subst c0 u0.
    rewrite (zip_fallback_run z m8 _ _ ts Hc8 Hu8 eq_refl Hts) in Hzip. simpl in Hzip.
    inversion Hzip; subst m9. clear Hzip.
    rewrite (clamp_block_ints _ c ts) in Hclamp;
      [|now rewrite lookup_insert_ne by done|now rewrite lookup_insert_eq].
    inversion Hclamp; subst meta. clear Hclamp.
    destruct (ts <? c) eqn:Hlt.
    + rewrite lookup_insert_eq, lookup_insert_ne, lookup_insert_eq by done.
      rewrite Z.min_r by lia. tauto.
    + rewrite lookup_insert_ne, lookup_insert_eq, Hc8 by done.
      rewrite Z.min_l by lia. tauto.
  - intros mv u Hcv Hmv Hamv.
    rewrite Hcv in Hc. rewrite Hmv in Hm. inversion Hc; inversion Hm; subst created modified.
    rewrite Hamv in Hau. inversion Hac; inversion Hau; subst c0 u0.
    rewrite (zip_fallback_run z m8 _ _ ts Hc8 Hu8 eq_refl Hts) in Hzip. simpl in Hzip.
    inversion Hzip; subst m9. clear Hzip.
    rewrite (clamp_block_ints _ ts u) in Hclamp;
      [|now rewrite lookup_insert_eq|now rewrite lookup_insert_ne by done].
    inversion Hclamp; subst meta. clear Hclamp.
    destruct (u <? ts) eqn:Hlt.
    + rewrite lookup_insert_eq, !lookup_insert_ne, Hu8 by done.
      rewrite Z.min_r by lia. tauto.
    + rewrite lookup_insert_eq, lookup_insert_ne, Hu8 by done.
      rewrite Z.min_l by lia. tauto.
Qed.

(** X11.  A thumbnail entry with an impossible stored date (such as month 0)
    makes the call raise whenever a date has to be taken from the container:
    only [KeyError] is caught around the thumbnail lookup.  The same defect
    in the archive entry, or a missing archive entry, is swallowed: with no
    thumbnail entry the container then supplies nothing and, if the archive
    yields no dates either, both dates stay null. *)
Theorem invalid_thumbnail_date_aborts :
  (forall z info,
      zip_find "QuickLook/Thumbnail.png" z = Some info ->
      datetime_valid (date_time info) = false ->
      zip_timestamp timestamp z = Raise ValueError) /\
  (forall data z objects root info,
      resolve_root readPlistFromString data = Ok (objects, root) ->
      created_value root = Ok VNone \/ modified_value root = Ok VNone ->
      zip_find "QuickLook/Thumbnail.png" z = Some info ->
      datetime_valid (date_time info) = false ->
      forall meta, fst (parse data (Some z)) <> Ok meta) /\
  (forall data z objects root meta,
      resolve_root readPlistFromString data = Ok (objects, root) ->
      created_value root = Ok VNone -> modified_value root = Ok VNone ->
      zip_find "QuickLook/Thumbnail.png" z = None ->
      match zip_find "Document.archive" z with
      | Some info => datetime_valid (date_time info) = false
      | None => True
      end ->
      fst (parse data (Some z)) = Ok meta ->
      meta !! "created_at" = Some VNone /\ meta !! "updated_at" = Some VNone).
Proof.
  assert (Hraise : forall z info,
      zip_find "QuickLook/Thumbnail.png" z = Some info ->
      datetime_valid (date_time info) = false ->
      zip_timestamp timestamp z = Raise ValueError).
  { intros z info Hfind Hbad. unfold zip_timestamp, entry_timestamp, getinfo.
    rewrite Hfind. simpl. now rewrite Hbad. }
  split; [exact Hraise|]. split.
  - intros data z objects root info Hroot Hmissing Hfind Hbad meta Hparse.
    destruct (parse_ok_fields _ _ _ _ _ _ _ Hroot Hparse)
      as (m1 & dpi & ori & lc & tsp & cp & ver & m8 & m9 & _ & _ & _ & _ & _ & _ & _
          & Hdates & Hzip & _).
    apply dates_block_ok in Hdates as (created & modified & c & u & Hc & Hm & Hac & Hau & ->).
    revert Hzip. unfold zip_fallback_block. unfold bind at 1. rewrite date_missing_spec.
    rewrite lookup_insert_ne, !lookup_insert_eq by done.
    assert (Hflag : (if is_none c then Ok true else Ok (is_none u)) = @Ok bool true).
    { destruct Hmissing as [Hn|Hn].
      - rewrite Hn in Hc. inversion Hc; subst created. inversion Hac; subst c. reflexivity.
      - rewrite Hn in Hm. inversion Hm; subst modified. inversion Hau; subst u.
        now destruct (is_none c). }
    rewrite Hflag. unfold bind, lift. rewrite (Hraise _ _ Hfind Hbad). discriminate.
  - intros data z objects root meta Hroot Hcv Hmv Hnone Harch Hparse.
    destruct (parse_ok_fields _ _ _ _ _ _ _ Hroot Hparse)
      as (m1 & dpi & ori & lc & tsp & cp & ver & m8 & m9 & _ & _ & _ & _ & _ & _ & _
          & Hdates & Hzip & Hclamp & _).
    apply dates_block_ok in Hdates as (created & modified & c & u & Hc & Hm & Hac & Hau & ->).
    rewrite Hcv in Hc. rewrite Hmv in Hm. inversion Hc; inversion Hm; subst created modified.
    inversion Hac; inversion Hau; subst c u.
    assert (Hts : container_timestamp timestamp (Some z) = Ok VNone).
    { simpl. unfold zip_timestamp, entry_timestamp, getinfo. rewrite Hnone. simpl.
      destruct (zip_find "Document.archive" z) as [info|]; [|reflexivity].
      simpl. now rewrite Harch. }
    set (m8 := <["updated_at" := VNone]> (<["created_at" := VNone]> _)) in Hzip.
    assert (Hc8 : m8 !! "created_at" = Some VNone)
      by (subst m8; now rewrite lookup_insert_ne, lookup_insert_eq by done).
    assert (Hu8 : m8 !! "updated_at" = Some VNone) by (subst m8; now rewrite lookup_insert_eq).
    rewrite (zip_fallback_fills timestamp _ _ _ Hc8 Hu8 Hts) in Hzip. simpl in Hzip.
    inversion Hzip; subst m9.
    rewrite (clamp_block_null _ Hc8) in Hclamp. inversion Hclamp; subst meta. tauto.
Qed.

End MoreProperties.

(** ** Further properties of [compute_sha256] *)

Lemma hash_chunks_zero n sha rest : n = 0 -> hash_chunks n sha rest = sha.
Proof.
  intros Hn. funelim (hash_chunks n sha rest); [reflexivity|].
  discriminate Heq.
Qed.

(** X12.  Two edges of [compute_sha256]: a path that is not a file raises when the
    file is opened, and a chunk size of 0 makes the first read return no
    bytes, so the loop ends at once and the digest returned is that of the
    empty input whatever the file holds. *)
Theorem compute_sha256_edges :
  (forall w path chunk_size,
      files w !! path = None ->
      compute_sha256 w path chunk_size = Raise FileNotFoundError) /\
  (forall w path bytes,
      files w !! path = Some bytes ->
      compute_sha256 w path 0 = Ok (Sha256.hexdigest [])).
Proof.
  split.
  - intros w path chunk_size Hnone. unfold compute_sha256. now rewrite Hnone.
  - intros w path bytes Hfile. unfold compute_sha256. rewrite Hfile.
    now rewrite hash_chunks_zero.
Qed.

(** ** Properties of [clear_temp] *)

Lemma sweep_spec cutoff dir :
  sweep cutoff dir
  = (List.filter (fun f => negb (stale cutoff f)) dir,
     Z.of_nat (length (List.filter (stale cutoff) dir))).
Proof.
  induction dir as [|f dir IH]; [reflexivity|].
  cbn [sweep List.filter]. rewrite IH.
  destruct (stale cutoff f); cbn [negb length]; f_equal; lia.
Qed.

(** X13.  [clear_temp] unlinks exactly the files whose name ends in ".png" and
    whose modification time is before [now - days * 86400]: every other
    file is still in the directory afterwards, in the same order, the count
    it prints is the number of files gone, and the directory it prints is
    [TEMP_DIR]. *)
Theorem clear_temp_removes_only_old_pngs :
  forall TEMP_DIR days now dir out rest,
    clear_temp TEMP_DIR days now dir = Ok (out, rest) ->
    exists span,
      float_of_int (days * 86400) = Ok span /\
      let cutoff := float_sub now span in
      rest = List.filter (fun f => negb (matches_png (fst f) && float_ltb (snd f) cutoff)) dir /\
      (forall f, In f dir ->
                 (In f rest <-> matches_png (fst f) = false \/ float_ltb (snd f) cutoff = false)) /\
      out !! "removed" = Some (VInt (Z.of_nat (length dir) - Z.of_nat (length rest))) /\
      out !! "temp_dir" = Some (VStr TEMP_DIR).
Proof.
  intros TEMP_DIR days now dir out rest. unfold clear_temp.
  destruct (float_of_int (days * 86400)) as [span|]; [|discriminate]. simpl.
  rewrite sweep_spec. intros [= <- <-]. exists span. split; [reflexivity|].
  cbv zeta. split; [reflexivity|]. split; [|split].
  - intros f Hin. rewrite filter_In. unfold stale.
    destruct (matches_png (fst f)), (float_ltb (snd f) (float_sub now span)); simpl;
      intuition congruence.
  - rewrite lookup_insert_ne, lookup_insert_eq by done. do 2 f_equal.
    pose proof (List.filter_length (stale (float_sub now span)) dir) as Hlen.
    unfold stale in *. lia.
  - now rewrite lookup_insert_eq.
Qed.

(** X14.  Running [clear_temp] again at the same time with the same age removes
    nothing more. *)
Theorem clear_temp_twice_removes_nothing :
  forall TEMP_DIR days now dir out rest,
    clear_temp TEMP_DIR days now dir = Ok (out, rest) ->
    exists out',
      clear_temp TEMP_DIR days now rest = Ok (out', rest) /\
      out' !! "removed" = Some (VInt 0).
Proof.
  intros TEMP_DIR days now dir out rest. unfold clear_temp.
  destruct (float_of_int (days * 86400)) as [span|]; [|discriminate]. simpl.
  rewrite !sweep_spec. intros [= _ <-].
  set (keep := fun f => negb (stale (float_sub now span) f)).
  assert (Hkeep : List.filter keep (List.filter keep dir) = List.filter keep dir).
  { induction dir as [|f dir IH]; [reflexivity|]. cbn [List.filter].
    destruct (keep f) eqn:Hf; [|exact IH]. cbn [List.filter]. now rewrite Hf, IH. }
  assert (Hnone : List.filter (stale (float_sub now span)) (List.filter keep dir) = []).
  { clear Hkeep. induction dir as [|f dir IH]; [reflexivity|]. cbn [List.filter].
    destruct (keep f) eqn:Hf; [|exact IH]. cbn [List.filter].
    unfold keep in Hf. apply negb_true_iff in Hf. now rewrite Hf. }
  rewrite Hkeep, Hnone. eexists. split; [reflexivity|].
  now rewrite lookup_insert_ne, lookup_insert_eq by done.
Qed.


(** ** Further properties of [inspect_procreate] *)

Lemma last_char_app a b :
  last_char (a ++ b)%string
  = match last_char b with Some c => Some c | None => last_char a end.
Proof.
  induction a as [|c a IH].
  - change ("" ++ b)%string with b. now destruct (last_char b).
  - change (String c a ++ b)%string with (String c (a ++ b)%string). simpl.
    rewrite IH. now destruct (last_char b).
Qed.

Lemma rsplit_dot_app s : forall a b, rsplit_dot s = Some (a, b) -> s = (a ++ b)%string.
Proof.
  induction s as [|c s IH]; simpl; [discriminate|].
  intros a b. destruct (rsplit_dot s) as [[a' b']|].
  - intros [= <- <-]. change (String c a' ++ b')%string with (String c (a' ++ b')%string).
    f_equal. now apply IH.
  - destruct (Ascii.eqb c "."); [|discriminate]. now intros [= <- <-].
Qed.

Lemma path_name_is_suffix p : exists pre, p = (pre ++ path_name p)%string.
Proof.
  induction p as [|c p [pre IH]]; simpl; [now exists ""|].
  destruct (existsb (Ascii.eqb "/") (list_ascii_of_string p)).
  - exists (String c pre).
    change (String c pre ++ path_name p)%string with (String c (pre ++ path_name p)%string).
    now f_equal.
  - destruct (Ascii.eqb c "/"); [now exists (String c "")|now exists ""].
Qed.

Lemma last_char_lower s : last_char (lower_string s) = option_map lower (last_char s).
Proof.
  unfold lower_string. induction s as [|c s IH]; simpl; [reflexivity|].
  rewrite IH. now destruct (last_char s).
Qed.

Lemma last_char_suffix p :
  path_suffix p <> "" -> last_char p = last_char (path_suffix p).
Proof.
  unfold path_suffix, stem_suffix. intros Hne.
  destruct (rsplit_dot (path_name p)) as [[a b]|] eqn:Hsplit; [|now destruct Hne].
  destruct a as [|c a]; [now destruct Hne|].
  destruct b as [|d [|e b]]; try now destruct Hne. simpl.
  apply rsplit_dot_app in Hsplit. destruct (path_name_is_suffix p) as [pre Hp].
  rewrite Hp, Hsplit, !last_char_app. simpl. now destruct (last_char b).
Qed.

Section MoreInspect.

Variable readPlistFromString : list byte -> result value.
Variable timestamp : Z * Z * Z * Z * Z * Z -> Z.
Variable open_zip : list byte -> result ZipFile.
Variable image_verify : list byte -> bool.
Variable TEMP_DIR : string.

Local Abbreviation thumbnail := (extract_thumbnail image_verify TEMP_DIR).
Local Abbreviation inspect_file :=
  (inspect_procreate readPlistFromString timestamp open_zip image_verify TEMP_DIR).
Local Abbreviation out_path := (thumbnail_out_path TEMP_DIR).
Local Abbreviation parse := (parse_document_archive readPlistFromString timestamp).

(** The thumbnail is never written over the document: its name ends in
    "g", the document's in "e" or "E". *)
Lemma out_path_is_not_the_document path w :
  lower_string (path_suffix path) = ".procreate" -> out_path w path <> path.
Proof.
  intros Hsuffix Heq.
  assert (Hg : last_char (out_path w path) = Some "g"%char)
    by (unfold thumbnail_out_path; now rewrite !last_char_app).
  rewrite Heq, last_char_suffix in Hg by (intros Hempty; now rewrite Hempty in Hsuffix).
  assert (He : last_char (lower_string (path_suffix path)) = Some "e"%char)
    by now rewrite Hsuffix.
  rewrite last_char_lower, Hg in He. discriminate He.
Qed.

Lemma extract_thumbnail_world zf path w r w1 :
  thumbnail zf path w = (r, w1) ->
  w1 = w \/ exists data, w1 = write_file (out_path w path) data w.
Proof.
  unfold extract_thumbnail. destruct (zip_read zf "QuickLook/Thumbnail.png") as [data|e].
  - simpl. rewrite lookup_insert_eq. destruct (image_verify data); intros [= _ <-]; eauto.
  - destruct e; intros [= _ <-]; now left.
Qed.

(** X15.  [inspect_procreate] refuses, with [RuntimeError] and without touching
    the world, a path that is not an existing file and a file whose suffix,
    compared without regard to case, is not ".procreate". *)
Theorem inspect_refuses_other_paths :
  forall path w,
    files w !! path = None \/ lower_string (path_suffix path) <> ".procreate" ->
    inspect_file path w = (Raise RuntimeError, w).
Proof.
  intros path w Hbad. unfold inspect_procreate.
  destruct (files w !! path) as [bytes|]; [|reflexivity].
  destruct Hbad as [Hnone|Hsuffix]; [discriminate|].
  destruct (String.eqb_spec (lower_string (path_suffix path)) ".procreate"); [contradiction|].
  reflexivity.
Qed.

(** X16.  A container that cannot be opened, has no [Document.archive] entry
    ([KeyError]), or whose archive makes [parse_document_archive] raise,
    aborts [inspect_procreate] with that exception before anything is
    written or printed: the world is unchanged. *)
Theorem inspect_container_failures_leave_world :
  forall path w bytes,
    files w !! path = Some bytes ->
    lower_string (path_suffix path) = ".procreate" ->
    (forall e, open_zip bytes = Raise e -> inspect_file path w = (Raise e, w)) /\
    (forall zf, open_zip bytes = Ok zf -> zip_find "Document.archive" zf = None ->
                inspect_file path w = (Raise KeyError, w)) /\
    (forall zf info e,
        open_zip bytes = Ok zf -> zip_find "Document.archive" zf = Some info ->
        fst (parse (content info) (Some zf)) = Raise e ->
        inspect_file path w = (Raise e, w)).
Proof.
  intros path w bytes Hfile Hsuffix. unfold inspect_procreate.
  rewrite Hfile, Hsuffix. simpl. split; [|split].
  - intros e ->. reflexivity.
  - intros zf -> Hnone. unfold zip_read, getinfo. now rewrite Hnone.
  - intros zf info e -> Hfind Hparse. unfold zip_read, getinfo. rewrite Hfind. simpl.
    now rewrite Hparse.
Qed.

(** X17.  A call that returns has printed exactly one dictionary: the fields of
    [parse_document_archive] with [thumbnail_path] (null when the container
    has no thumbnail entry, else the path of the file written), [source_path]
    (the path given) and [file_hash], the SHA-256 digest of the document's
    own bytes. *)
Theorem inspect_prints_one_record :
  forall path w w',
    inspect_file path w = (Ok tt, w') ->
    exists bytes zf info meta thumb,
      files w !! path = Some bytes /\
      open_zip bytes = Ok zf /\
      zip_find "Document.archive" zf = Some info /\
      fst (parse (content info) (Some zf)) = Ok meta /\
      (zip_find "QuickLook/Thumbnail.png" zf = None /\ thumb = VNone \/
       exists img, zip_find "QuickLook/Thumbnail.png" zf = Some img /\
                   thumb = VStr (out_path w path) /\
                   files w' !! out_path w path = Some (content img)) /\
      stdout w'
      = (stdout w ++
         [<["file_hash" := VStr (Sha256.hexdigest bytes)]>
            (<["source_path" := VStr path]> (<["thumbnail_path" := thumb]> meta))])%list.
Proof.
  intros path w w'. unfold inspect_procreate.
  destruct (files w !! path) as [bytes|] eqn:Hfile; [|discriminate].
  destruct (String.eqb_spec (lower_string (path_suffix path)) ".procreate") as [Hsuffix|];
    [|discriminate]. simpl.
  destruct (open_zip bytes) as [zf|] eqn:Hzip; [|discriminate].
  unfold zip_read at 1, getinfo.
  destruct (zip_find "Document.archive" zf) as [info|] eqn:Harch; [|discriminate]. simpl.
  destruct (fst (parse (content info) (Some zf))) as [meta|] eqn:Hparse; [|discriminate].
  destruct (thumbnail zf path w) as [[thumb|] w1] eqn:Hthumb; [|discriminate].
  assert (Hsame : files w1 !! path = Some bytes).
  { destruct (extract_thumbnail_world _ _ _ _ _ Hthumb) as [->|[data ->]]; [assumption|].
    simpl. rewrite lookup_insert_ne; [assumption|].
    now apply out_path_is_not_the_document. }
  unfold compute_sha256. rewrite Hsame.
  rewrite hash_chunks_feeds_all by discriminate.
  destruct (map_fold _ _ _); [|discriminate]. intros [= <-].
  exists bytes, zf, info, meta, thumb.
  repeat (split; [first [reflexivity|assumption]|]).
  split; [|simpl].
  - revert Hthumb. unfold extract_thumbnail, zip_read, getinfo.
    destruct (zip_find "QuickLook/Thumbnail.png" zf) as [img|]; simpl.
    + rewrite lookup_insert_eq. destruct (image_verify (content img)); [|discriminate].
      intros [= <- <-]. right. exists img. simpl. now rewrite lookup_insert_eq.
    + intros [= <- <-]. now left.
  - destruct (extract_thumbnail_world _ _ _ _ _ Hthumb) as [->|[data ->]]; reflexivity.
Qed.

(** X18.  Whatever happens, [inspect_procreate] leaves the document and every file
    other than the thumbnail's temporary path as they were, prints nothing
    when it raises, and prints one dictionary when it returns. *)
Theorem inspect_touches_only_the_thumbnail_path :
  forall path w,
    let w' := snd (inspect_procreate readPlistFromString timestamp open_zip image_verify
                     TEMP_DIR path w) in
    files w' !! path = files w !! path /\
    (forall p, p <> thumbnail_out_path TEMP_DIR w path -> files w' !! p = files w !! p) /\
    (forall e, fst (inspect_file path w) = Raise e -> stdout w' = stdout w) /\
    (fst (inspect_file path w) = Ok tt -> exists m, stdout w' = (stdout w ++ [m])%list).
Proof.
  intros path w. cbv zeta.
  assert (Hcases : (exists e, inspect_file path w = (Raise e, w)) \/
                   (lower_string (path_suffix path) = ".procreate" /\
                    exists w1 r, (w1 = w \/ exists data, w1 = write_file (out_path w path) data w) /\
                      (inspect_file path w = (r, w1) /\ (exists e, r = Raise e) \/
                       exists m, inspect_file path w = (Ok tt, print_json m w1)))).
  { unfold inspect_procreate.
    destruct (files w !! path) as [bytes|]; [|left; eauto].
    destruct (String.eqb_spec (lower_string (path_suffix path)) ".procreate") as [Hsuffix|];
      [|left; eauto]. simpl.
    destruct (open_zip bytes) as [zf|]; [|left; eauto].
    destruct (zip_read zf "Document.archive") as [data|]; [|left; eauto].
    destruct (fst (parse data (Some zf))) as [meta|]; [|left; eauto].
    right. split; [assumption|].
    destruct (thumbnail zf path w) as [[thumb|e] w1] eqn:Hthumb;
      exists w1; apply extract_thumbnail_world in Hthumb.
    - destruct (compute_sha256 w1 path default_chunk_size) as [h|e];
        [|exists (Raise e); split; [assumption|left; eauto]].
      destruct (map_fold _ _ _).
      + exists (Ok tt). split; [assumption|right; eauto].
      + exists (Raise TypeError). split; [assumption|left; eauto].
    - exists (Raise e). split; [assumption|left; eauto]. }
  destruct Hcases as [[e ->]|(Hsuffix & w1 & r & Hw1 & Hrun)].
  - simpl. split; [reflexivity|]. split; [reflexivity|]. split; [reflexivity|discriminate].
  - assert (Hfiles : forall p, p <> out_path w path -> files w1 !! p = files w !! p).
    { intros p Hp. destruct Hw1 as [->|[data ->]]; [reflexivity|].
      simpl. now rewrite lookup_insert_ne. }
    assert (Hout : stdout w1 = stdout w) by (destruct Hw1 as [->|[data ->]]; reflexivity).
    assert (Hdoc : path <> out_path w path)
      by (intros Heq; now apply (out_path_is_not_the_document path w)).
    destruct Hrun as [[-> [e ->]]|[m ->]]; simpl.
    + split; [now apply Hfiles|]. split; [exact Hfiles|]. split; [now intros|discriminate].
    + split; [now apply Hfiles|]. split; [exact Hfiles|]. split; [discriminate|].
      intros _. exists m. now rewrite Hout.
Qed.

End MoreInspect.

(** ** The further properties on concrete inputs *)

Lemma orientation_is_one_of_three_words_witness :
  let meta := snd (parse_studio None) in
  hashable (VInt 2) = true /\
  meta !! "orientation" = Some (VStr "landscape").
Proof.
  intros meta.
  assert (Hrun : fst (parse_studio None) = Ok meta)
    by (vm_cast_no_check (@eq_refl _ (@Ok Meta meta))).
  clearbody meta.
  assert (Hroot : resolve_root (decodes_to studio_archive) []
                  = Ok (VList studio_objects, VDict studio_root))
    by (vm_compute; reflexivity).
  destruct (orientation_is_one_of_three_words (decodes_to studio_archive) utc_timestamp
              [] None _ _ meta Hroot Hrun) as (Hhash & Hword & _).
  split; [exact Hhash|exact Hword].
Defined.

Lemma number_fields_are_integers_witness :
  let meta := snd (parse_studio None) in
  (exists z, meta !! "dpi" = Some (VInt z)) /\
  (exists z, meta !! "layer_count" = Some (VInt z)) /\
  (meta !! "updated_at" = Some VNone \/ exists z, meta !! "updated_at" = Some (VInt z)).
Proof.
  intros meta.
  assert (Hrun : fst (parse_studio None) = Ok meta)
    by (vm_cast_no_check (@eq_refl _ (@Ok Meta meta))).
  clearbody meta.
  destruct (number_fields_are_integers (decodes_to studio_archive) utc_timestamp
              [] None meta Hrun) as (Hdpi & Hlc & _ & _ & Hupdated).
  auto.
Defined.

Lemma canvas_fields_both_or_neither_witness :
  (let meta := snd (parse_studio None) in
   (exists w h, meta !! "canvas_width" = Some (VInt w) /\
                meta !! "canvas_height" = Some (VInt h)) \/
   (meta !! "canvas_width" = None /\ meta !! "canvas_height" = None)) /\
  (let meta := snd (parse_root (VDict [("size", VStr "2048")]) None) in
   meta !! "canvas_width" = None).
Proof.
  split; intros meta.
  - assert (Hrun : fst (parse_studio None) = Ok meta)
      by (vm_cast_no_check (@eq_refl _ (@Ok Meta meta))).
    clearbody meta.
    assert (Hroot : resolve_root (decodes_to studio_archive) []
                    = Ok (VList studio_objects, VDict studio_root))
      by (vm_compute; reflexivity).
    exact (proj1 (canvas_fields_both_or_neither (decodes_to studio_archive) utc_timestamp
                    [] None _ _ meta Hroot Hrun)).
  - assert (Hrun : fst (parse_root (VDict [("size", VStr "2048")]) None) = Ok meta)
      by (vm_cast_no_check (@eq_refl _ (@Ok Meta meta))).
    clearbody meta.
    assert (Hroot : resolve_root (decodes_to (keyed_archive (VDict [("size", VStr "2048")]))) []
                    = Ok (VList [VStr "$null"; VDict [("size", VStr "2048")]],
                          VDict [("size", VStr "2048")]))
      by (vm_compute; reflexivity).
    apply (proj2 (canvas_fields_both_or_neither _ utc_timestamp [] None _ _ meta Hroot Hrun)).
    exists (VStr "2048"), "2048". repeat split; [vm_compute; discriminate].
Defined.

Lemma layer_count_sources_witness :
  let meta := snd (parse_studio None) in
  meta !! "layer_count" = Some (VInt 5).
Proof.
  intros meta.
  assert (Hrun : fst (parse_studio None) = Ok meta)
    by (vm_cast_no_check (@eq_refl _ (@Ok Meta meta))).
  clearbody meta.
  assert (Hroot : resolve_root (decodes_to studio_archive) []
                  = Ok (VList studio_objects, VDict studio_root))
    by (vm_compute; reflexivity).
  destruct (layer_count_sources (decodes_to studio_archive) utc_timestamp
              [] None _ _ meta Hroot Hrun) as (_ & _ & Hlayers).
  exact (Hlayers eq_refl eq_refl
           (VDict [("NS.objects", VList [VUid 5; VUid 5; VUid 5; VUid 5; VUid 5])]) eq_refl).
Defined.

Lemma color_profile_precedence_witness :
  let meta := snd (parse_studio None) in
  meta !! "color_profile" = Some (VStr "Display P3").
Proof.
  intros meta.
  assert (Hrun : fst (parse_studio None) = Ok meta)
    by (vm_cast_no_check (@eq_refl _ (@Ok Meta meta))).
  clearbody meta.
  assert (Hroot : resolve_root (decodes_to studio_archive) []
                  = Ok (VList studio_objects, VDict studio_root))
    by (vm_compute; reflexivity).
  destruct (color_profile_precedence (decodes_to studio_archive) utc_timestamp
              [] None _ _ meta Hroot Hrun) as (_ & Hcolor).
  destruct (Hcolor eq_refl
              (VDict [("SiColorProfileArchiveICCNameKey", VUid 4); ("name", VStr "sRGB")])
              eq_refl) as (_ & Hicc).
  exact (Hicc ltac:(discriminate) (VStr "Display P3") eq_refl).
Defined.

Lemma version_is_passed_through_witness :
  let meta := snd (parse_studio None) in
  meta !! "procreate_version" = Some (VStr "5.3.2").
Proof.
  intros meta.
  assert (Hrun : fst (parse_studio None) = Ok meta)
    by (vm_cast_no_check (@eq_refl _ (@Ok Meta meta))).
  clearbody meta.
  assert (Hroot : resolve_root (decodes_to studio_archive) []
                  = Ok (VList studio_objects, VDict studio_root))
    by (vm_compute; reflexivity).
  exact (version_is_passed_through (decodes_to studio_archive) utc_timestamp
           [] None _ _ meta Hroot Hrun).
Defined.

Lemma container_ignored_when_archive_has_dates_witness :
  parse_root late_creation_root (Some (container_with_thumbnail png_signature))
  = parse_root late_creation_root None.
Proof.
  assert (Hroot : resolve_root (decodes_to (keyed_archive late_creation_root)) []
                  = Ok (VList [VStr "$null"; late_creation_root], late_creation_root))
    by (vm_compute; reflexivity).
  apply (container_ignored_when_archive_has_dates (decodes_to (keyed_archive late_creation_root))
           utc_timestamp [] (Some (container_with_thumbnail png_signature)) _ _
           (VFloat (float_of_Z 700000000)) (VFloat (float_of_Z 600000000)) Hroot);
    first [vm_compute; reflexivity|discriminate].
Defined.

Lemma container_fills_the_missing_date_witness :
  let meta := snd (parse_studio (Some (container_with_thumbnail png_signature))) in
  meta !! "created_at" = Some (VInt 1678307200) /\
  meta !! "updated_at" = Some (VInt 1709987408).
Proof.
  intros meta.
  assert (Hrun : fst (parse_studio (Some (container_with_thumbnail png_signature))) = Ok meta)
    by (vm_cast_no_check (@eq_refl _ (@Ok Meta meta))).
  clearbody meta.
  assert (Hroot : resolve_root (decodes_to studio_archive) []
                  = Ok (VList studio_objects, VDict studio_root))
    by (vm_compute; reflexivity).
  assert (Hts : zip_timestamp utc_timestamp (container_with_thumbnail png_signature)
                = Ok (VInt 1709987408)) by (vm_compute; reflexivity).
  destruct (container_fills_the_missing_date (decodes_to studio_archive) utc_timestamp
              [] _ _ _ 1709987408 meta Hroot Hts Hrun) as (Hcreated & _).
  apply (Hcreated (VFloat (float_of_Z 700000000)) 1678307200);
    vm_compute; reflexivity.
Defined.

Lemma invalid_thumbnail_date_aborts_witness :
  zip_timestamp utc_timestamp container_with_undated_thumbnail = Raise ValueError /\
  (forall meta, fst (parse_root (VDict []) (Some container_with_undated_thumbnail)) <> Ok meta) /\
  (let meta := snd (parse_root (VDict []) (Some container_with_undated_archive)) in
   meta !! "created_at" = Some VNone /\ meta !! "updated_at" = Some VNone).
Proof.
  assert (Hroot : resolve_root (decodes_to (keyed_archive (VDict []))) []
                  = Ok (VList [VStr "$null"; VDict []], VDict []))
    by (vm_compute; reflexivity).
  destruct (invalid_thumbnail_date_aborts (decodes_to (keyed_archive (VDict []))) utc_timestamp)
    as (Hraise & Habort & Hnull).
  split; [exact (Hraise container_with_undated_thumbnail
                   (entry 1980 0 0 0 0 0 png_signature) eq_refl eq_refl)|].
  split.
  - exact (Habort [] container_with_undated_thumbnail _ _
             (entry 1980 0 0 0 0 0 png_signature) Hroot (or_introl eq_refl) eq_refl eq_refl).
  - intros meta.
    assert (Hrun : fst (parse_root (VDict []) (Some container_with_undated_archive)) = Ok meta)
      by (vm_cast_no_check (@eq_refl _ (@Ok Meta meta))).
    clearbody meta.
    exact (Hnull [] container_with_undated_archive _ _ meta Hroot eq_refl eq_refl eq_refl
             eq_refl Hrun).
Defined.

Lemma compute_sha256_edges_witness :
  compute_sha256 sketch_world "/art/Other.procreate" default_chunk_size
    = Raise FileNotFoundError /\
  compute_sha256 sketch_world "/art/Sketch.procreate" 0
    = Ok "e3b0c44298fc1c149afbf4c8996fb92427ae41e4649b934ca495991b7852b855".
Proof.
  destruct compute_sha256_edges as (Hmissing & Hzero).
  split; [apply Hmissing; vm_compute; reflexivity|].
  rewrite (Hzero sketch_world "/art/Sketch.procreate" [x50; x4b])
    by (vm_compute; reflexivity).
  vm_compute; reflexivity.
Defined.

Lemma clear_temp_removes_only_old_pngs_witness :
  exists out rest,
    clear_temp "/tmp/procreate_meta" 7 (float_of_Z 1000000) sample_temp_dir = Ok (out, rest) /\
    rest = [("Sketch_900000.png", float_of_Z 900000); ("notes.txt", float_of_Z 100000)] /\
    out !! "removed" = Some (VInt 1).
Proof.
  destruct (clear_temp "/tmp/procreate_meta" 7 (float_of_Z 1000000) sample_temp_dir)
    as [[out rest]|e] eqn:Hrun; [|vm_compute in Hrun; discriminate].
  exists out, rest. split; [reflexivity|].
  destruct (clear_temp_removes_only_old_pngs _ _ _ _ _ _ Hrun)
    as (span & Hspan & Hrest & _ & Hcount & _).
  assert (Hval : Ok span = Ok (float_of_Z 604800))
    by (rewrite <- Hspan; vm_compute; reflexivity).
  injection Hval as ->.
  assert (Hlist : rest = [("Sketch_900000.png", float_of_Z 900000);
                          ("notes.txt", float_of_Z 100000)])
    by (rewrite Hrest; vm_compute; reflexivity).
  split; [exact Hlist|]. rewrite Hcount, Hlist. reflexivity.
Defined.

Lemma clear_temp_twice_removes_nothing_witness :
  exists out rest out',
    clear_temp "/tmp/procreate_meta" 7 (float_of_Z 1000000) sample_temp_dir = Ok (out, rest) /\
    clear_temp "/tmp/procreate_meta" 7 (float_of_Z 1000000) rest = Ok (out', rest) /\
    out' !! "removed" = Some (VInt 0).
Proof.
  destruct (clear_temp "/tmp/procreate_meta" 7 (float_of_Z 1000000) sample_temp_dir)
    as [[out rest]|e] eqn:Hrun; [|vm_compute in Hrun; discriminate].
  destruct (clear_temp_twice_removes_nothing _ _ _ _ _ _ Hrun) as (out' & Hagain & Hzero).
  exists out, rest, out'. auto.
Defined.

Lemma inspect_refuses_other_paths_witness :
  inspect_sketch_path "/art/Missing.procreate" = (Raise RuntimeError, sketch_world) /\
  inspect_procreate (decodes_to (keyed_archive (VDict []))) utc_timestamp
    (fun _ => Ok container_without_thumbnail) has_png_signature "/tmp/procreate_meta"
    "/art/Sketch.png"
    {| files := {["/art/Sketch.png" := png_signature]}; clock := 0; stdout := [] |}
  = (Raise RuntimeError,
     {| files := {["/art/Sketch.png" := png_signature]}; clock := 0; stdout := [] |}).
Proof.
  split.
  - apply inspect_refuses_other_paths. left. vm_compute; reflexivity.
  - apply inspect_refuses_other_paths. right. vm_compute. discriminate.
Defined.

Lemma inspect_container_failures_leave_world_witness :
  inspect_sketch [] = (Raise KeyError, sketch_world) /\
  inspect_procreate (decodes_to archive_without_root_uid) utc_timestamp
    (fun _ => Ok container_without_thumbnail) has_png_signature "/tmp/procreate_meta"
    "/art/Sketch.procreate" sketch_world
  = (Raise RuntimeError, sketch_world).
Proof.
  assert (Hfile : files sketch_world !! "/art/Sketch.procreate" = Some [x50; x4b])
    by (vm_compute; reflexivity).
  assert (Hsuffix : lower_string (path_suffix "/art/Sketch.procreate") = ".procreate")
    by (vm_compute; reflexivity).
  split.
  - destruct (inspect_container_failures_leave_world
                (decodes_to (keyed_archive (VDict []))) utc_timestamp
                (fun _ => Ok []) has_png_signature "/tmp/procreate_meta"
                _ _ _ Hfile Hsuffix) as (_ & Hentry & _).
    exact (Hentry [] eq_refl eq_refl).
  - destruct (inspect_container_failures_leave_world
                (decodes_to archive_without_root_uid) utc_timestamp
                (fun _ => Ok container_without_thumbnail) has_png_signature
                "/tmp/procreate_meta" _ _ _ Hfile Hsuffix) as (_ & _ & Hparse).
    apply (Hparse container_without_thumbnail (entry 2024 1 1 0 0 0 []));
      vm_compute; reflexivity.
Defined.

Lemma inspect_prints_one_record_witness :
  let w' := snd (inspect_sketch (container_with_thumbnail png_signature)) in
  exists meta,
    fst (parse_root (VDict []) (Some (container_with_thumbnail png_signature))) = Ok meta /\
    files w' !! "/tmp/procreate_meta/Sketch_1700000000.png" = Some png_signature /\
    stdout w'
    = [<["file_hash" := VStr (Sha256.hexdigest [x50; x4b])]>
         (<["source_path" := VStr "/art/Sketch.procreate"]>
            (<["thumbnail_path" := VStr "/tmp/procreate_meta/Sketch_1700000000.png"]> meta))].
Proof.
  intros w'.
  assert (Hrun : inspect_sketch (container_with_thumbnail png_signature) = (Ok tt, w'))
    by (vm_cast_no_check (@eq_refl _ (@pair (result unit) World (Ok tt) w'))).
  clearbody w'.
  destruct (inspect_prints_one_record _ _ _ _ _ _ _ _ Hrun)
    as (bytes & zf & info & meta & thumb & Hfile & Hzip & Hinfo & Hparse & Hthumb & Hout).
  injection Hzip as <-.
  assert (Hbytes : Some bytes = Some [x50; x4b])
    by (rewrite <- Hfile; vm_compute; reflexivity).
  injection Hbytes as ->.
  assert (Hentry : Some info = Some (entry 2024 1 1 0 0 0 []))
    by (rewrite <- Hinfo; vm_compute; reflexivity).
  injection Hentry as ->.
  exists meta. split; [exact Hparse|].
  destruct Hthumb as [[Hnone _]|(img & Himg & -> & Hwritten)];
    [vm_compute in Hnone; discriminate|].
  assert (Hentry : Some img = Some (entry 2024 3 9 12 30 8 png_signature))
    by (rewrite <- Himg; vm_compute; reflexivity).
  injection Hentry as ->.
  assert (Hpath : thumbnail_out_path "/tmp/procreate_meta" sketch_world "/art/Sketch.procreate"
                  = "/tmp/procreate_meta/Sketch_1700000000.png")
    by (vm_compute; reflexivity).
  rewrite Hpath in Hwritten, Hout.
  split; [exact Hwritten|exact Hout].
Defined.

Lemma inspect_touches_only_the_thumbnail_path_witness :
  let w' := snd (inspect_sketch (container_with_thumbnail [x00; x01])) in
  files w' !! "/art/Sketch.procreate" = Some [x50; x4b] /\
  files w' !! "/art/Other.procreate" = None /\
  stdout w' = [].
Proof.
  intros w'.
  destruct (inspect_touches_only_the_thumbnail_path
              (decodes_to (keyed_archive (VDict []))) utc_timestamp
              (fun _ => Ok (container_with_thumbnail [x00; x01]))
              has_png_signature "/tmp/procreate_meta"
              "/art/Sketch.procreate" sketch_world) as (Hdoc & Hother & Hraise & _).
  split; [exact Hdoc|]. split.
  - apply (Hother "/art/Other.procreate"). vm_compute. discriminate.
  - apply (Hraise ImageError). vm_compute; reflexivity.
Defined.
